(** * Authorization core of the multi-tenant backend

    A shallow embedding of the role/permission resolver
    ([backend/api/models.py]), the permission classes and guards
    ([backend/api/permissions/role_permissions.py],
    [backend/api/decorators/permissions.py]), the tenant middleware
    ([backend/api/middleware/tenant_middleware.py]), the role middleware
    ([backend/api/middleware/role_auth_middleware.py]), the tenant-scoped
    query helpers ([backend/api/managers/tenant_manager.py]) and the seed
    command ([backend/api/management/commands/seed_permissions.py]).

    Tables are lists of rows in insertion order; a foreign key is the primary
    key of the row it points to; roles, permission names and slugs are
    strings, compared the way the Python code compares them. *)

From Stdlib Require Import String Ascii List Bool Arith Lia.
From Stdlib Require Import Permutation Sorted.
Import ListNotations.
Open Scope string_scope.

(** ** Python helpers on strings and lists *)

(** [x in xs] for a list of strings. *)
Definition str_in (x : string) (xs : list string) : bool :=
  existsb (String.eqb x) xs.

(** [list(set(xs))]: the elements of [xs] without repetition.  Python leaves
    the order of a set unspecified; the model keeps first occurrences. *)
Fixpoint py_set (xs : list string) : list string :=
  match xs with
  | [] => []
  | x :: rest => if str_in x rest then py_set rest else x :: py_set rest
  end.

(** ** Data model ([backend/api/models.py]) *)

Module Models.

Record Organization := mkOrganization {
  org_pk : nat;
  org_name : string;
  org_slug : string
}.

Record Permission := mkPermission {
  perm_pk : nat;
  perm_name : string;
  perm_category : string;
  perm_description : string
}.

Record UserProfile := mkUserProfile {
  profile_pk : nat;
  role : string;
  organization : option Organization
}.

(** [RolePermission]: a role and a foreign key to [Permission]. *)
Record RolePermission := mkRolePermission {
  rp_role : string;
  rp_permission : nat
}.

(** [UserPermission]: foreign keys to [UserProfile] and [Permission], and
    the [granted] flag. *)
Record UserPermission := mkUserPermission {
  up_user_profile : nat;
  up_permission : nat;
  up_granted : bool
}.

(** The tables the resolver and the seed command read and write. *)
Record Db := mkDb {
  organizations : list Organization;
  permissions : list Permission;
  role_permissions : list RolePermission;
  user_permissions : list UserPermission
}.

(** Django compares model instances by primary key. *)
Definition org_eqb (a b : Organization) : bool :=
  Nat.eqb (org_pk a) (org_pk b).

(** [a == b] where either side may be [None]. *)
Definition opt_org_eqb (a b : option Organization) : bool :=
  match a, b with
  | Some x, Some y => org_eqb x y
  | None, None => true
  | _, _ => false
  end.

Definition is_superadmin (p : UserProfile) : bool := role p =? "superadmin".
Definition is_admin (p : UserProfile) : bool := role p =? "admin".
Definition is_manager (p : UserProfile) : bool := role p =? "manager".
Definition is_user (p : UserProfile) : bool := role p =? "user".

Definition is_admin_or_above (p : UserProfile) : bool :=
  str_in (role p) ["admin"; "superadmin"; "manager"].

(** The lookup [permission__name=name] across the foreign key: the row
    [pk] of [Permission] exists and carries that name. *)
Definition permission_named (db : Db) (pk : nat) (name : string) : bool :=
  existsb (fun q => Nat.eqb (perm_pk q) pk && (perm_name q =? name))
          (permissions db).

(** [RolePermission.objects.filter(role=.., permission__name=..)]. *)
Definition role_permission_rows (db : Db) (r name : string)
  : list RolePermission :=
  filter (fun rp => (rp_role rp =? r)
                    && permission_named db (rp_permission rp) name)
         (role_permissions db).

(** [UserPermission.objects.filter(user_profile=.., permission__name=..,
    granted=True)]. *)
Definition user_permission_rows (db : Db) (p : UserProfile) (name : string)
  : list UserPermission :=
  filter (fun up => Nat.eqb (up_user_profile up) (profile_pk p)
                    && permission_named db (up_permission up) name
                    && Bool.eqb (up_granted up) true)
         (user_permissions db).

(** [QuerySet.exists()]. *)
Definition exists_ {A : Type} (rows : list A) : bool :=
  match rows with [] => false | _ :: _ => true end.

Definition has_permission (db : Db) (p : UserProfile)
           (permission_name : string) : bool :=
  if is_superadmin p then true
  else
    let role_has_perm :=
      exists_ (role_permission_rows db (role p) permission_name) in
    if role_has_perm then true
    else
      let user_perm :=
        exists_ (user_permission_rows db p permission_name) in
      user_perm.

(** [Permission.Meta.ordering = ['category', 'name']]: every query on
    [Permission] that asks for no other order returns its rows sorted by
    category, then by name.  Strings compare character by character. *)
Definition permission_leb (a b : Permission) : bool :=
  match String.compare (perm_category a) (perm_category b) with
  | Lt => true
  | Gt => false
  | Eq => String.leb (perm_name a) (perm_name b)
  end.

Fixpoint insert_ordered (q : Permission) (rows : list Permission)
  : list Permission :=
  match rows with
  | [] => [q]
  | q' :: rest =>
      if permission_leb q q' then q :: rows
      else q' :: insert_ordered q rest
  end.

Fixpoint order_by_category_name (rows : list Permission)
  : list Permission :=
  match rows with
  | [] => []
  | q :: rest => insert_ordered q (order_by_category_name rest)
  end.

(** [Permission.objects.all()]. *)
Definition Permission_objects (db : Db) : list Permission :=
  order_by_category_name (permissions db).

(** [Permission.objects.filter(role_permissions__role=role)
    .values_list('name', flat=True)]: the join yields one name for each
    pair of a permission and a binding of it to the role. *)
Definition role_perms (db : Db) (r : string) : list string :=
  flat_map (fun q =>
              map (fun _ => perm_name q)
                  (filter (fun rp => Nat.eqb (rp_permission rp) (perm_pk q)
                                     && (rp_role rp =? r))
                          (role_permissions db)))
           (Permission_objects db).

(** [Permission.objects.filter(user_permissions__user_profile=self,
    user_permissions__granted=True).values_list('name', flat=True)]. *)
Definition user_perms (db : Db) (p : UserProfile) : list string :=
  flat_map (fun q =>
              map (fun _ => perm_name q)
                  (filter (fun up => Nat.eqb (up_permission up) (perm_pk q)
                                     && Nat.eqb (up_user_profile up)
                                                (profile_pk p)
                                     && Bool.eqb (up_granted up) true)
                          (user_permissions db)))
           (Permission_objects db).

Definition get_permissions (db : Db) (p : UserProfile) : list string :=
  if is_superadmin p then map perm_name (Permission_objects db)
  else py_set ((role_perms db (role p) ++ user_perms db p)%list).

(** What the specification calls the pair (role, p) of RoleBinding: a row
    of [RolePermission] for the role whose permission is named [name]. *)
(** The table after [UserPermission.objects.create(..)] of one row. *)
Definition with_user_permission (db : Db) (up : UserPermission) : Db :=
  mkDb (organizations db) (permissions db) (role_permissions db)
       (user_permissions db ++ [up]).

Definition role_binding (db : Db) (r name : string) : Prop :=
  exists rp q,
    In rp (role_permissions db) /\ In q (permissions db) /\
    rp_role rp = r /\ rp_permission rp = perm_pk q /\ perm_name q = name.

(** A row (principal, p, granted) of UserPermissionOverride. *)
Definition user_override (db : Db) (p : UserProfile) (name : string)
           (granted : bool) : Prop :=
  exists up q,
    In up (user_permissions db) /\ In q (permissions db) /\
    up_user_profile up = profile_pk p /\ up_permission up = perm_pk q /\
    perm_name q = name /\ up_granted up = granted.

End Models.

Export Models.

(** ** Principals, requests and responses *)

(** [request.user] is an [AnonymousUser] ([is_authenticated] false, no
    [profile] attribute) or a row of [User] ([is_authenticated] true), whose
    reverse one-to-one accessor [profile] exists only when a [UserProfile]
    row points to it. *)
Inductive User :=
| AnonymousUser
| AuthUser (pk : nat) (username : string) (profile : option UserProfile).

Definition is_authenticated (u : User) : bool :=
  match u with
  | AnonymousUser => false
  | AuthUser _ _ _ => true
  end.

(** [user.profile] when [hasattr(user, 'profile')], else [None]. *)
Definition user_profile (u : User) : option UserProfile :=
  match u with
  | AnonymousUser => None
  | AuthUser _ _ profile => profile
  end.

(** [JsonResponse({'error': .., 'detail': ..}, status=..)]. *)
Record Response := JsonResponse {
  status : nat;
  error : string;
  detail : option string
}.

(** What the middleware and guards read from, and attach to, a request. *)
Record Request := mkRequest {
  path : string;
  user : User;
  tenant : option Organization;
  org_slug_attr : option string;
  user_role : option string
}.

Definition set_tenant (r : Request) (t : option Organization) : Request :=
  mkRequest (path r) (user r) t (org_slug_attr r) (user_role r).

Definition set_org_slug (r : Request) (s : option string) : Request :=
  mkRequest (path r) (user r) (tenant r) s (user_role r).

(** Exceptions the ORM raises on [get]. *)
Inductive Exn := DoesNotExist | MultipleObjectsReturned.

Inductive Result (A : Type) :=
| Ok (a : A)
| Raise (e : Exn).
Arguments Ok {A} a.
Arguments Raise {A} e.

Definition bind {A B : Type} (m : Result A) (k : A -> Result B) : Result B :=
  match m with
  | Ok a => k a
  | Raise e => Raise e
  end.

Notation "x <- m ;; k" := (bind m (fun x => k))
  (at level 61, m at next level, right associativity).
Notation "' pat <- m ;; k" := (bind m (fun x => match x with pat => k end))
  (at level 61, pat pattern, m at next level, right associativity).

(** ** The ORM manager: [get] and [get_or_create] *)

Section Manager.
Context {Row : Type}.

(** [Model.objects.get(lookup)]: exactly one matching row, or an
    exception. *)
Definition objects_get (lookup : Row -> bool) (rows : list Row)
  : Result Row :=
  match filter lookup rows with
  | [] => Raise DoesNotExist
  | [r] => Ok r
  | _ :: _ :: _ => Raise MultipleObjectsReturned
  end.

(** [Model.objects.get_or_create(lookup, defaults)]: the matching row
    and [False], or a row built from the lookup and the defaults, appended
    to the table, and [True]. *)
Definition get_or_create (lookup : Row -> bool) (create : list Row -> Row)
           (rows : list Row) : Result (list Row * Row * bool) :=
  match objects_get lookup rows with
  | Ok r => Ok (rows, r, false)
  | Raise DoesNotExist =>
      let r := create rows in Ok ((rows ++ [r])%list, r, true)
  | Raise MultipleObjectsReturned => Raise MultipleObjectsReturned
  end.
End Manager.

(** The primary key an insert draws: larger than every key in the table. *)
Definition next_pk (pks : list nat) : nat := S (list_max pks).

(** ** Permission classes ([backend/api/permissions/role_permissions.py]) *)

(** [not request.user or not request.user.is_authenticated], where DRF may
    leave [request.user] at [None]. *)
Definition not_authenticated (u : option User) : bool :=
  match u with
  | None => true
  | Some u' => negb (is_authenticated u')
  end.

(** [request.user.profile.role], [None] standing for the exception the
    [try] blocks catch. *)
Definition request_role (u : option User) : option string :=
  match u with
  | None => None
  | Some u' => option_map role (user_profile u')
  end.

Module RolePermissions.

Definition IsAdminOrAbove_has_permission (u : option User) : bool :=
  if not_authenticated u then false
  else
    match request_role u with
    | Some r => str_in r ["admin"; "superadmin"]
    | None => false
    end.

(** The objects a view hands to [has_object_permission]: a [User] (its
    [profile], when present, gives the role), a [UserProfile] (it has
    [role]), or an object with neither attribute. *)
Inductive Target :=
| TargetUser (u : User)
| TargetProfile (p : UserProfile)
| TargetOther.

Definition target_role (obj : Target) : option string :=
  match obj with
  | TargetUser u =>
      match user_profile u with
      | Some p => Some (role p)
      | None => None
      end
  | TargetProfile p => Some (role p)
  | TargetOther => None
  end.

Definition opt_str_eqb (a : option string) (b : string) : bool :=
  match a with
  | Some x => x =? b
  | None => false
  end.

Definition CanManageUsers_has_object_permission
           (u : option User) (obj : Target) : bool :=
  if not_authenticated u then false
  else
    let target_role := target_role obj in
    if opt_str_eqb (request_role u) "superadmin" then true
    else if opt_str_eqb (request_role u) "admin"
         then opt_str_eqb target_role "user"
         else false.

(** [IsSuperAdmin], [IsAdmin], [IsUser], [CanChangeRole] and the view-level
    check of [CanManageUsers]. *)
Definition IsSuperAdmin_has_permission (u : option User) : bool :=
  if not_authenticated u then false
  else opt_str_eqb (request_role u) "superadmin".

Definition IsAdmin_has_permission (u : option User) : bool :=
  if not_authenticated u then false
  else opt_str_eqb (request_role u) "admin".

Definition IsUser_has_permission (u : option User) : bool :=
  match u with
  | None => false
  | Some u' => is_authenticated u'
  end.

Definition CanManageUsers_has_permission (u : option User) : bool :=
  if not_authenticated u then false
  else
    match request_role u with
    | Some r => str_in r ["admin"; "superadmin"]
    | None => false
    end.

Definition CanChangeRole_has_permission (u : option User) : bool :=
  if not_authenticated u then false
  else opt_str_eqb (request_role u) "superadmin".

(** [permissions.SAFE_METHODS] of the REST framework. *)
Definition SAFE_METHODS : list string := ["GET"; "HEAD"; "OPTIONS"].

Definition ReadOnlyOrAdmin_has_permission (method : string)
           (u : option User) : bool :=
  if str_in method SAFE_METHODS then
    match u with
    | None => false
    | Some u' => is_authenticated u'
    end
  else
    match request_role u with
    | Some r => str_in r ["admin"; "superadmin"]
    | None => false
    end.

(** [a == b] on users: rows of [User] compare by primary key, and an
    [AnonymousUser] equals any other [AnonymousUser]. *)
Definition user_eqb (a b : User) : bool :=
  match a, b with
  | AnonymousUser, AnonymousUser => true
  | AuthUser pk _ _, AuthUser pk' _ _ => Nat.eqb pk pk'
  | _, _ => false
  end.

Definition opt_user_eqb (a b : option User) : bool :=
  match a, b with
  | Some x, Some y => user_eqb x y
  | None, None => true
  | _, _ => false
  end.

(** The attributes [IsOwnerOrAdminOrAbove] looks for on an object: [owner]
    and [user], each absent ([None]) or holding a user or [None]. *)
Record Resource := mkResource {
  res_owner : option (option User);
  res_user : option (option User)
}.

Definition IsOwnerOrAdminOrAbove_has_object_permission
           (u : option User) (obj : Resource) : bool :=
  if match request_role u with
     | Some r => str_in r ["admin"; "superadmin"]
     | None => false
     end
  then true
  else
    match res_owner obj with
    | Some owner => opt_user_eqb owner u
    | None =>
        match res_user obj with
        | Some user => opt_user_eqb user u
        | None => false
        end
    end.

End RolePermissions.

(** ** Guards ([backend/api/decorators/permissions.py]) *)

Module Decorators.

Definition require_permission (db : Db) (permission_name : string)
           (view_func : Request -> Response) (request : Request)
  : Response :=
  if negb (is_authenticated (user request)) then
    JsonResponse 401 "Authentication required" None
  else
    match user_profile (user request) with
    | None => JsonResponse 403 "User profile not found" None
    | Some profile =>
        if negb (has_permission db profile permission_name) then
          JsonResponse 403 "Permission denied"
            (Some ("You do not have permission: " ++ permission_name))
        else view_func request
    end.

Definition require_role (allowed_roles : list string)
           (view_func : Request -> Response) (request : Request)
  : Response :=
  if negb (is_authenticated (user request)) then
    JsonResponse 401 "Authentication required" None
  else
    match user_profile (user request) with
    | None => JsonResponse 403 "User profile not found" None
    | Some profile =>
        let user_role := role profile in
        if negb (str_in user_role allowed_roles) then
          JsonResponse 403 "Access denied"
            (Some ("Required role: " ++ String.concat ", " allowed_roles))
        else view_func request
    end.

Definition IsAdminOrAbove_has_permission (u : option User) : bool :=
  if not_authenticated u then false
  else
    match u with
    | None => false
    | Some u' =>
        match user_profile u' with
        | None => false
        | Some profile => is_admin_or_above profile
        end
    end.

Definition BelongsToTenant_has_permission
           (u : option User) (request_tenant : option Organization)
  : bool :=
  if not_authenticated u then false
  else
    match u with
    | None => false
    | Some u' =>
        match user_profile u' with
        | None => false
        | Some profile =>
            if is_superadmin profile then true
            else
              match request_tenant with
              | None => false
              | Some t => opt_org_eqb (organization profile) (Some t)
              end
        end
    end.

Definition superadmin_required (view_func : Request -> Response)
           (request : Request) : Response :=
  if negb (is_authenticated (user request)) then
    JsonResponse 401 "Authentication required" None
  else
    match user_profile (user request) with
    | None => JsonResponse 403 "User profile not found" None
    | Some profile =>
        if negb (is_superadmin profile) then
          JsonResponse 403 "Access denied" (Some "Superadmin access required")
        else view_func request
    end.

Definition admin_required (view_func : Request -> Response)
           (request : Request) : Response :=
  if negb (is_authenticated (user request)) then
    JsonResponse 401 "Authentication required" None
  else
    match user_profile (user request) with
    | None => JsonResponse 403 "User profile not found" None
    | Some profile =>
        if negb (is_admin_or_above profile) then
          JsonResponse 403 "Access denied" (Some "Admin access required")
        else view_func request
    end.

Definition require_tenant (view_func : Request -> Response)
           (request : Request) : Response :=
  match tenant request with
  | None =>
      JsonResponse 400 "Organization required"
        (Some "This endpoint requires a valid organization in the URL")
  | Some _ => view_func request
  end.

(** [HasPermission]: the permission the view names in
    [required_permission], if it names one. *)
Definition HasPermission_has_permission (db : Db) (u : option User)
           (required_permission : option string) : bool :=
  if not_authenticated u then false
  else
    match u with
    | None => false
    | Some u' =>
        match user_profile u' with
        | None => false
        | Some profile =>
            match required_permission with
            | None => false
            | Some permission_name =>
                if permission_name =? "" then false
                else has_permission db profile permission_name
            end
        end
    end.

(** [HasRole]: [required_roles] defaults to the empty list. *)
Definition HasRole_has_permission (u : option User)
           (required_roles : list string) : bool :=
  if not_authenticated u then false
  else
    match u with
    | None => false
    | Some u' =>
        match user_profile u' with
        | None => false
        | Some profile =>
            match required_roles with
            | [] => false
            | _ :: _ => str_in (role profile) required_roles
            end
        end
    end.

Definition IsSuperAdmin_has_permission (u : option User) : bool :=
  if not_authenticated u then false
  else
    match u with
    | None => false
    | Some u' =>
        match user_profile u' with
        | None => false
        | Some profile => is_superadmin profile
        end
    end.

End Decorators.

(** ** Tenant middleware ([backend/api/middleware/tenant_middleware.py]) *)

(** [s.split(sep)] for a one-character separator. *)
Fixpoint split (sep : ascii) (s : string) : list string :=
  match s with
  | EmptyString => [EmptyString]
  | String c rest =>
      if Ascii.eqb c sep then EmptyString :: split sep rest
      else
        match split sep rest with
        | [] => [String c EmptyString]
        | part :: parts => String c part :: parts
        end
  end.

(** [xs.index(x)], [None] standing for [ValueError]. *)
Fixpoint index (x : string) (xs : list string) : option nat :=
  match xs with
  | [] => None
  | y :: rest =>
      if y =? x then Some 0
      else option_map S (index x rest)
  end.

(** [any(path.startswith(p) for p in prefixes)]. *)
Definition any_startswith (p : string) (prefixes : list string) : bool :=
  existsb (fun pre => String.prefix pre p) prefixes.

Definition dquote : string := String (ascii_of_nat 34) EmptyString.

Module TenantMiddleware.

Definition skip_paths : list string :=
  ["/admin/"; "/api/auth/"; "/api/health/"; "/api/docs/"; "/api/schema/";
   "/static/"; "/media/"].

(** What a [process_request] hands back to the framework: the request as
    the middleware left it and [None] (go on) or a response (stop here);
    or an exception it did not catch. *)
Inductive Outcome :=
| Return (request : Request) (response : option Response)
| Uncaught (e : Exn).

Definition not_found (org_slug : string) : Response :=
  JsonResponse 404 "Organization not found"
    (Some ("Organization with slug " ++ dquote ++ org_slug ++ dquote
           ++ " does not exist")).

Definition TenantDetection_process_request (db : Db) (request0 : Request)
  : Outcome :=
  let request := set_org_slug (set_tenant request0 None) None in
  if any_startswith (path request) skip_paths then Return request None
  else
    let path_parts := split "/"%char (path request) in
    if str_in "org" path_parts then
      match index "org" path_parts with
      | None => Return request None
      | Some org_index =>
          if (org_index + 1 <? List.length path_parts)%nat then
            match nth_error path_parts (org_index + 1) with
            | None => Return request None
            | Some org_slug =>
                if negb (org_slug =? "") then
                  let request := set_org_slug request (Some org_slug) in
                  match objects_get (fun o => Models.org_slug o =? org_slug)
                                    (organizations db) with
                  | Ok organization =>
                      Return (set_tenant request (Some organization)) None
                  | Raise DoesNotExist =>
                      Return request (Some (not_found org_slug))
                  | Raise e => Uncaught e
                  end
                else Return request None
            end
          else Return request None
      end
    else Return request None.

Definition access_denied : Response :=
  JsonResponse 403 "Access denied"
    (Some "You do not have access to this organization").

Definition TenantIsolation_process_request (request : Request)
  : option Response :=
  if negb (is_authenticated (user request)) then None
  else
    if match user_profile (user request) with
       | Some profile => is_superadmin profile
       | None => false
       end
    then None
    else
      match tenant request with
      | Some request_tenant =>
          match user_profile (user request) with
          | Some profile =>
              let user_org := organization profile in
              if negb (opt_org_eqb user_org (Some request_tenant))
              then Some access_denied
              else None
          | None => None
          end
      | None => None
      end.

(** The helper [get_user_organization] that
    [OrganizationContextMiddleware] attaches to the request. *)
Definition get_user_organization (u : User) : option Organization :=
  if is_authenticated u then
    match user_profile u with
    | Some profile => organization profile
    | None => None
    end
  else None.

Definition tenant_required_paths : list string := ["/api/org/"].

Definition exempt_paths : list string :=
  ["/admin/"; "/api/auth/"; "/api/health/"; "/api/docs/"; "/api/schema/";
   "/api/organizations/"; "/static/"; "/media/"].

Definition organization_required : Response :=
  JsonResponse 400 "Organization required"
    (Some "This endpoint requires a valid organization in the URL path").

Definition TenantRequired_process_request (request : Request)
  : option Response :=
  if any_startswith (path request) exempt_paths then None
  else
    let requires_tenant :=
      any_startswith (path request) tenant_required_paths in
    if requires_tenant
       && match tenant request with None => true | Some _ => false end
    then Some organization_required
    else None.

(** The helper [has_tenant_access(organization=None)] that
    [OrganizationContextMiddleware] attaches to the request. *)
Definition has_tenant_access (request : Request)
           (organization : option Organization) : bool :=
  if negb (is_authenticated (user request)) then false
  else
    if match user_profile (user request) with
       | Some profile => is_superadmin profile
       | None => false
       end
    then true
    else
      let target_org :=
        match organization with
        | Some o => Some o
        | None => tenant request
        end in
      match target_org, user_profile (user request) with
      | Some t, Some profile =>
          opt_org_eqb (Models.organization profile) (Some t)
      | _, _ => false
      end.

Definition is_tenant_isolated (request : Request) : bool :=
  match tenant request with
  | Some _ => true
  | None => false
  end.

End TenantMiddleware.

(** ** Role middleware ([backend/api/middleware/role_auth_middleware.py]) *)

Module RoleAuthMiddleware.

Definition role_hierarchy : list (string * nat) :=
  [("superadmin", 3); ("admin", 2); ("user", 1)].

(** [d.get(key, default)] on a dict with string keys; [key] may be
    [None], which is no key of [d]. *)
Fixpoint dict_get (d : list (string * nat)) (key : option string)
         (default : nat) : nat :=
  match d with
  | [] => default
  | (k, v) :: rest =>
      match key with
      | Some k' => if k =? k' then v else dict_get rest key default
      | None => dict_get rest key default
      end
  end.

(** [if required_role:] for [getattr(view_func, 'required_role', None)]. *)
Definition truthy (s : option string) : bool :=
  match s with
  | Some r => negb (r =? "")
  | None => false
  end.

Definition process_view (request : Request) (required_role : option string)
  : option Response :=
  if truthy required_role then
    if negb (is_authenticated (user request)) then
      Some (JsonResponse 401 "Authentication required"
              (Some "You must be logged in to access this resource"))
    else
      let user_role := user_role request in
      let required_level := dict_get role_hierarchy required_role 0 in
      let user_level := dict_get role_hierarchy user_role 0 in
      if (user_level <? required_level)%nat then
        Some (JsonResponse 403 "Insufficient permissions"
                (Some ("This resource requires "
                       ++ match required_role with Some r => r | None => "None" end
                       ++ " role. Your role: "
                       ++ match user_role with Some r => r | None => "None" end)))
      else None
  else None.

(** The facts [process_request] attaches to the request. *)
Record RoleFacts := mkRoleFacts {
  fact_user_role : option string;
  fact_is_superadmin : bool;
  fact_is_admin : bool;
  fact_is_admin_or_above : bool
}.

Definition no_role : RoleFacts := mkRoleFacts None false false false.

(** [process_request]; [create] stands for
    [UserProfile.objects.create(user=request.user)], which may raise. *)
Definition process_request (create : User -> Result UserProfile)
           (request : Request) : RoleFacts :=
  if is_authenticated (user request) then
    match user_profile (user request) with
    | Some profile =>
        mkRoleFacts (Some (role profile)) (is_superadmin profile)
                    (is_admin profile) (is_admin_or_above profile)
    | None =>
        match create (user request) with
        | Ok _ => mkRoleFacts (Some "user") false false false
        | Raise _ => no_role
        end
    end
  else no_role.

(** The request as [process_view] sees it after [process_request]. *)
Definition with_user_role (request : Request) (facts : RoleFacts)
  : Request :=
  mkRequest (path request) (user request) (tenant request)
            (org_slug_attr request) (fact_user_role facts).

End RoleAuthMiddleware.

(** ** Tenant-scoped queries ([backend/api/managers/tenant_manager.py]) *)

Section TenantQuerySet.
(** A tenant-owned model: rows with a foreign key [organization]. *)
Variable Row : Type.
Variable row_organization : Row -> Organization.

Definition QuerySet := list Row.

Definition for_tenant (self : QuerySet) (org : option Organization)
  : QuerySet :=
  match org with
  | None => []
  | Some o => filter (fun r => org_eqb (row_organization r) o) self
  end.

Definition for_user (self : QuerySet) (u : User) : QuerySet :=
  if negb (is_authenticated u) then []
  else
    match user_profile u with
    | Some profile =>
        match organization profile with
        | Some o => for_tenant self (Some o)
        | None => []
        end
    | None => []
    end.

Definition accessible_by (self : QuerySet) (u : User) : QuerySet :=
  if negb (is_authenticated u) then []
  else
    if match user_profile u with
       | Some profile => is_superadmin profile
       | None => false
       end
    then self
    else for_user self u.
End TenantQuerySet.

Arguments for_tenant {Row} row_organization self org.
Arguments for_user {Row} row_organization self u.
Arguments accessible_by {Row} row_organization self u.

Section TenantQuerySetRequest.
(** [for_request] of the query set and [is_accessible_by] of
    [TenantAwareMixin], over the same kind of rows. *)
Variable Row : Type.
Variable row_organization : Row -> Organization.

Definition for_request (self : list Row) (request : Request) : list Row :=
  match tenant request with
  | Some t => for_tenant row_organization self (Some t)
  | None => for_user row_organization self (user request)
  end.

Definition is_accessible_by (self : Row) (u : User) : bool :=
  if negb (is_authenticated u) then false
  else
    match user_profile u with
    | Some profile =>
        if is_superadmin profile then true
        else opt_org_eqb (Some (row_organization self))
                         (organization profile)
    | None => false
    end.
End TenantQuerySetRequest.

Arguments for_request {Row} row_organization self request.
Arguments is_accessible_by {Row} row_organization self u.

(** ** Service layer ([backend/api/services/base_service.py]) *)

Module BaseService.

Record ServiceException := mkServiceException {
  message : string;
  code : string;
  exc_status : nat
}.

(** A validation returns, or raises a [ServiceException]. *)
Inductive Checked :=
| Passed
| Raised (e : ServiceException).

Record Service := mkService {
  svc_user : option User;
  svc_organization : option Organization
}.

Definition validate_user_authenticated (self : Service) : Checked :=
  if not_authenticated (svc_user self) then
    Raised (mkServiceException "Authentication required" "auth_required" 401)
  else Passed.

Definition validate_organization_set (self : Service) : Checked :=
  match svc_organization self with
  | None =>
      Raised (mkServiceException "Organization context required"
                                 "org_required" 400)
  | Some _ => Passed
  end.

Definition validate_permission (db : Db) (self : Service)
           (permission_name : string) : Checked :=
  match validate_user_authenticated self with
  | Raised e => Raised e
  | Passed =>
      match option_map user_profile (svc_user self) with
      | Some (Some profile) =>
          if negb (has_permission db profile permission_name) then
            Raised (mkServiceException
                      ("Permission denied: " ++ permission_name)
                      "permission_denied" 403)
          else Passed
      | _ =>
          Raised (mkServiceException "User profile not found"
                                     "profile_not_found" 403)
      end
  end.

Definition validate_role (self : Service) (allowed_roles : list string)
  : Checked :=
  match validate_user_authenticated self with
  | Raised e => Raised e
  | Passed =>
      match option_map user_profile (svc_user self) with
      | Some (Some profile) =>
          if negb (str_in (role profile) allowed_roles) then
            Raised (mkServiceException
                      ("Required role: "
                       ++ String.concat ", " allowed_roles)
                      "role_required" 403)
          else Passed
      | _ =>
          Raised (mkServiceException "User profile not found"
                                     "profile_not_found" 403)
      end
  end.

End BaseService.

(** ** Seed command
    ([backend/api/management/commands/seed_permissions.py]) *)

Module SeedPermissions.

Record PermData := mkPermData {
  name : string;
  category : string;
  description : string
}.

Definition permissions_data : list PermData :=
  [ mkPermData "view_users" "users" "View user list and profiles";
    mkPermData "create_users" "users" "Create new users";
    mkPermData "edit_users" "users" "Edit user information";
    mkPermData "delete_users" "users" "Delete users";
    mkPermData "manage_roles" "users" "Change user roles and permissions";
    mkPermData "view_dashboard" "data" "View main dashboard";
    mkPermData "view_analytics" "data" "View analytics and reports";
    mkPermData "view_reports" "data" "View detailed reports";
    mkPermData "export_data" "data" "Export data to CSV/PDF";
    mkPermData "import_data" "data" "Import data from files";
    mkPermData "create_tasks" "data" "Create new tasks";
    mkPermData "manage_tasks" "data" "Manage all tasks";
    mkPermData "view_basic_analytics" "analytics" "View basic analytics";
    mkPermData "view_advanced_analytics" "analytics"
               "View advanced analytics";
    mkPermData "generate_reports" "analytics" "Generate custom reports";
    mkPermData "view_settings" "settings" "View application settings";
    mkPermData "edit_settings" "settings" "Edit application settings";
    mkPermData "manage_billing" "settings"
               "Manage billing and subscriptions";
    mkPermData "manage_organizations" "system" "Manage organizations";
    mkPermData "view_all_data" "system" "View all organization data";
    mkPermData "manage_system_settings" "system"
               "Manage system-wide settings";
    mkPermData "view_audit_logs" "system" "View audit logs" ].

Definition role_permissions_map : list (string * list string) :=
  [ ("superadmin", []);
    ("admin",
     ["view_users"; "create_users"; "edit_users"; "delete_users";
      "manage_roles";
      "view_dashboard"; "view_analytics"; "view_reports"; "export_data";
      "import_data"; "create_tasks"; "manage_tasks";
      "view_basic_analytics"; "view_advanced_analytics";
      "generate_reports";
      "view_settings"; "edit_settings"; "manage_billing";
      "view_audit_logs"]);
    ("manager",
     ["view_users"; "create_users"; "edit_users";
      "view_dashboard"; "view_analytics"; "view_reports"; "export_data";
      "create_tasks"; "manage_tasks";
      "view_basic_analytics"; "view_advanced_analytics";
      "generate_reports";
      "view_settings"]);
    ("analyst",
     ["view_users";
      "view_dashboard"; "view_analytics"; "view_reports"; "export_data";
      "create_tasks";
      "view_basic_analytics"; "view_advanced_analytics";
      "generate_reports";
      "view_settings"]);
    ("user",
     ["view_dashboard"; "create_tasks"; "view_basic_analytics";
      "view_settings"]);
    ("viewer",
     ["view_dashboard"; "view_analytics"; "view_basic_analytics"]);
    ("volunteer", ["view_dashboard"; "create_tasks"]) ].

Definition set_permissions (db : Db) (rows : list Permission) : Db :=
  mkDb (organizations db) rows (role_permissions db) (user_permissions db).

Definition set_role_permissions (db : Db) (rows : list RolePermission)
  : Db :=
  mkDb (organizations db) (permissions db) rows (user_permissions db).

(** The first loop of [handle]: one [get_or_create] by name for each entry
    of the data, counting the rows created. *)
Fixpoint create_permissions (data : list PermData) (db : Db)
         (created_count : nat) : Result (Db * nat) :=
  match data with
  | [] => Ok (db, created_count)
  | perm_data :: rest =>
      '(rows, perm, created) <-
        get_or_create
          (fun q => perm_name q =? name perm_data)
          (fun rows => mkPermission (next_pk (map perm_pk rows))
                                    (name perm_data)
                                    (category perm_data)
                                    (description perm_data))
          (permissions db) ;;
      create_permissions rest (set_permissions db rows)
        (if created : bool then created_count + 1 else created_count)
  end.

(** The inner loop of the second part: the permissions of one role.  A
    name that is not in the catalog is skipped with a warning. *)
Fixpoint create_role_mappings (role : string) (permission_names : list string)
         (db : Db) (mapping_count : nat) : Result (Db * nat) :=
  match permission_names with
  | [] => Ok (db, mapping_count)
  | perm_name :: rest =>
      match objects_get (fun q => Models.perm_name q =? perm_name)
                        (permissions db) with
      | Ok permission =>
          '(rows, role_perm, created) <-
            get_or_create
              (fun rp => (rp_role rp =? role)
                         && Nat.eqb (rp_permission rp) (perm_pk permission))
              (fun _ => mkRolePermission role (perm_pk permission))
              (role_permissions db) ;;
          create_role_mappings role rest (set_role_permissions db rows)
            (if created : bool then mapping_count + 1 else mapping_count)
      | Raise DoesNotExist =>
          create_role_mappings role rest db mapping_count
      | Raise e => Raise e
      end
  end.

(** The outer loop over [role_permissions_map.items()]. *)
Fixpoint create_mappings (map : list (string * list string)) (db : Db)
         (mapping_count : nat) : Result (Db * nat) :=
  match map with
  | [] => Ok (db, mapping_count)
  | (role, permission_names) :: rest =>
      '(db', mapping_count') <-
        create_role_mappings role permission_names db mapping_count ;;
      create_mappings rest db' mapping_count'
  end.

(** What a run leaves and reports: the tables, and the two counts it
    writes to standard output ("Created n new permissions", "Created n new
    role-permission mappings"). *)
Record Report := mkReport {
  db_after : Db;
  created_count : nat;
  mapping_count : nat
}.

Definition handle (db : Db) : Result Report :=
  '(db1, created_count) <- create_permissions permissions_data db 0 ;;
  '(db2, mapping_count) <- create_mappings role_permissions_map db1 0 ;;
  Ok (mkReport db2 created_count mapping_count).

(** The unique constraints of the schema: [Permission.name] is unique and
    [RolePermission] is unique together on (role, permission). *)
Definition role_permission_key (rp : RolePermission) : string * nat :=
  (rp_role rp, rp_permission rp).

Definition unique_constraints (db : Db) : Prop :=
  NoDup (map perm_name (permissions db)) /\
  NoDup (map role_permission_key (role_permissions db)).

End SeedPermissions.

(** ** Sample data

    Three organizations, a small catalog whose last row sorts first, and one
    principal of each kind the properties below speak about. *)

Module Sample.

Definition acme : Organization := mkOrganization 1 "Acme Corp" "acme-corp".
Definition globex : Organization := mkOrganization 2 "Globex" "globex".
Definition initech : Organization := mkOrganization 3 "Initech" "initech".

Definition view_dashboard : Permission :=
  mkPermission 1 "view_dashboard" "data" "View main dashboard".
Definition manage_billing : Permission :=
  mkPermission 2 "manage_billing" "settings"
               "Manage billing and subscriptions".
Definition manage_system_settings : Permission :=
  mkPermission 3 "manage_system_settings" "system"
               "Manage system-wide settings".

Definition export_data : Permission :=
  mkPermission 4 "export_data" "data" "Export data to CSV/PDF".

Definition root_profile : UserProfile := mkUserProfile 1 "superadmin" None.
Definition alice_profile : UserProfile :=
  mkUserProfile 2 "admin" (Some acme).
Definition mallory_profile : UserProfile :=
  mkUserProfile 3 "manager" (Some globex).
Definition bob_profile : UserProfile := mkUserProfile 4 "user" (Some acme).

Definition root : User := AuthUser 1 "root" (Some root_profile).
Definition alice : User := AuthUser 2 "alice" (Some alice_profile).
Definition mallory : User := AuthUser 3 "mallory" (Some mallory_profile).
Definition bob : User := AuthUser 4 "bob" (Some bob_profile).
(** An authenticated identity whose [UserProfile] row is missing. *)
Definition ghost : User := AuthUser 5 "ghost" None.

(** [manager] and [user] are bound to [view_dashboard]; bob is granted
    [manage_billing] and holds a [granted=False] row for
    [view_dashboard]. *)
Definition db : Db :=
  mkDb [acme; globex; initech]
       [view_dashboard; manage_billing; manage_system_settings;
        export_data]
       [mkRolePermission "manager" 1; mkRolePermission "user" 1]
       [mkUserPermission 4 2 true; mkUserPermission 4 1 false].

(** A tenant-owned model, as in the usage notes of the manager: a task
    with its organization and title. *)
Record Task := mkTask {
  task_organization : Organization;
  task_title : string
}.

Definition tasks : list Task :=
  [mkTask acme "a1"; mkTask globex "g1"; mkTask acme "a2";
   mkTask initech "i1"].

Definition request_for (u : User) (p : string)
           (t : option Organization) : Request :=
  mkRequest p u t None (option_map role (user_profile u)).

Definition ok_view (_ : Request) : Response := JsonResponse 200 "" None.

End Sample.

(** * Properties *)

(** ** Helper lemmas on the Python-style list operations *)

Lemma str_in_In (x : string) (xs : list string) :
  str_in x xs = true <-> In x xs.
Proof.
  unfold str_in. rewrite existsb_exists. split.
  - intros [y [Hy E]]. apply String.eqb_eq in E. now subst.
  - intros H. exists x. split; [assumption | apply String.eqb_refl].
Qed.

Lemma str_in_not_In (x : string) (xs : list string) :
  str_in x xs = false <-> ~ In x xs.
Proof.
  rewrite <- str_in_In. destruct (str_in x xs); split; intros; congruence.
Qed.

Lemma py_set_In (x : string) (xs : list string) :
  In x (py_set xs) <-> In x xs.
Proof.
  induction xs as [|y ys IH]; simpl; [tauto|].
  destruct (str_in y ys) eqn:E.
  - rewrite IH. split; [tauto|]. intros [->|H]; [|assumption].
    now apply str_in_In.
  - simpl. now rewrite IH.
Qed.

Lemma py_set_NoDup (xs : list string) : NoDup (py_set xs).
Proof.
  induction xs as [|y ys IH]; simpl; [constructor|].
  destruct (str_in y ys) eqn:E; [assumption|].
  constructor; [|assumption].
  rewrite py_set_In. now apply str_in_not_In.
Qed.

Lemma exists_true_iff {A : Type} (rows : list A) :
  exists_ rows = true <-> exists r, In r rows.
Proof.
  destruct rows as [|r rs]; simpl; split.
  - discriminate.
  - intros [r []].
  - intros _. exists r. now left.
  - reflexivity.
Qed.

(** ** The default ordering of Permission *)

Lemma insert_ordered_Permutation (q : Permission) (rows : list Permission) :
  Permutation (insert_ordered q rows) (q :: rows).
Proof.
  induction rows as [|q' rest IH]; simpl; [apply Permutation_refl|].
  destruct (permission_leb q q'); [apply Permutation_refl|].
  eapply Permutation_trans; [apply perm_skip, IH | apply perm_swap].
Qed.

Lemma order_by_Permutation (rows : list Permission) :
  Permutation (order_by_category_name rows) rows.
Proof.
  induction rows as [|q rest IH]; simpl; [constructor|].
  eapply Permutation_trans; [apply insert_ordered_Permutation|].
  now apply perm_skip.
Qed.

Lemma permission_leb_total (a b : Permission) :
  permission_leb a b = false -> permission_leb b a = true.
Proof.
  unfold permission_leb.
  rewrite (String.compare_antisym (perm_category b) (perm_category a)).
  destruct (String.compare (perm_category a) (perm_category b)); simpl.
  - intros H.
    destruct (String.leb_total (perm_name a) (perm_name b)); congruence.
  - discriminate.
  - reflexivity.
Qed.

Lemma insert_ordered_Sorted (q : Permission) (rows : list Permission) :
  Sorted (fun a b => permission_leb a b = true) rows ->
  Sorted (fun a b => permission_leb a b = true) (insert_ordered q rows).
Proof.
  induction rows as [|q' rest IH]; simpl; intros Hs.
  - repeat constructor.
  - destruct (permission_leb q q') eqn:E.
    + constructor; [assumption | now constructor].
    + inversion Hs as [|x l Hrest Hhd]; subst.
      constructor; [now apply IH|].
      destruct rest as [|q'' rest']; simpl.
      * constructor. now apply permission_leb_total.
      * destruct (permission_leb q q''); constructor.
        -- now apply permission_leb_total.
        -- now inversion Hhd.
Qed.

Lemma order_by_Sorted (rows : list Permission) :
  Sorted (fun a b => permission_leb a b = true)
         (order_by_category_name rows).
Proof.
  induction rows as [|q rest IH]; simpl; [constructor|].
  now apply insert_ordered_Sorted.
Qed.

Lemma Permission_objects_In (db : Db) (q : Permission) :
  In q (Permission_objects db) <-> In q (permissions db).
Proof.
  unfold Permission_objects. split; apply Permutation_in.
  - apply order_by_Permutation.
  - apply Permutation_sym, order_by_Permutation.
Qed.

(** ** The authorization resolver *)

Section Resolver.
Variable db : Db.

Lemma permission_named_iff (pk : nat) (n : string) :
  permission_named db pk n = true <->
  exists q, In q (permissions db) /\ perm_pk q = pk /\ perm_name q = n.
Proof.
  unfold permission_named. rewrite existsb_exists.
  split; intros [q [Hq H]]; exists q.
  - apply andb_true_iff in H. destruct H as [H1 H2].
    apply Nat.eqb_eq in H1. apply String.eqb_eq in H2. tauto.
  - destruct H as [H1 H2]. split; [assumption|].
    apply andb_true_iff. split.
    + now apply Nat.eqb_eq.
    + now apply String.eqb_eq.
Qed.

Lemma role_rows_iff (r n : string) :
  exists_ (role_permission_rows db r n) = true <-> role_binding db r n.
Proof.
  rewrite exists_true_iff. unfold role_permission_rows, role_binding.
  split.
  - intros [rp Hrp]. apply filter_In in Hrp. destruct Hrp as [Hin H].
    apply andb_true_iff in H. destruct H as [H1 H2].
    apply String.eqb_eq in H1.
    apply permission_named_iff in H2. destruct H2 as [q [Hq [E1 E2]]].
    exists rp, q. repeat split; auto.
  - intros [rp [q [Hrp [Hq [E1 [E2 E3]]]]]]. exists rp.
    apply filter_In. split; [assumption|].
    apply andb_true_iff. split.
    + now apply String.eqb_eq.
    + apply permission_named_iff. exists q. auto.
Qed.

Lemma user_rows_iff (p : UserProfile) (n : string) :
  exists_ (user_permission_rows db p n) = true <->
  user_override db p n true.
Proof.
  rewrite exists_true_iff. unfold user_permission_rows, user_override.
  split.
  - intros [up Hup]. apply filter_In in Hup. destruct Hup as [Hin H].
    apply andb_true_iff in H. destruct H as [H H3].
    apply andb_true_iff in H. destruct H as [H1 H2].
    apply Nat.eqb_eq in H1. apply eqb_prop in H3.
    apply permission_named_iff in H2. destruct H2 as [q [Hq [E1 E2]]].
    exists up, q. repeat split; auto.
  - intros [up [q [Hup [Hq [E1 [E2 [E3 E4]]]]]]]. exists up.
    apply filter_In. split; [assumption|].
    rewrite !andb_true_iff. repeat split.
    + now apply Nat.eqb_eq.
    + apply permission_named_iff. exists q. auto.
    + rewrite E4. reflexivity.
Qed.

Lemma has_permission_iff (p : UserProfile) (n : string) :
  has_permission db p n = true <->
  role p = "superadmin" \/ role_binding db (role p) n \/
  user_override db p n true.
Proof.
  unfold has_permission, is_superadmin.
  destruct (role p =? "superadmin") eqn:Es.
  - apply String.eqb_eq in Es. tauto.
  - apply String.eqb_neq in Es.
    rewrite <- role_rows_iff, <- user_rows_iff.
    destruct (exists_ (role_permission_rows db (role p) n));
      intuition congruence.
Qed.

Lemma role_perms_In (r n : string) :
  In n (role_perms db r) <-> role_binding db r n.
Proof.
  unfold role_perms, role_binding. rewrite in_flat_map. split.
  - intros [q [Hq H]]. apply Permission_objects_In in Hq.
    apply in_map_iff in H. destruct H as [rp [E H]].
    apply filter_In in H. destruct H as [Hrp H].
    apply andb_true_iff in H. destruct H as [H1 H2].
    apply Nat.eqb_eq in H1. apply String.eqb_eq in H2.
    exists rp, q. auto.
  - intros [rp [q [Hrp [Hq [E1 [E2 E3]]]]]]. exists q.
    split; [now apply Permission_objects_In|].
    apply in_map_iff. exists rp. split; [assumption|].
    apply filter_In. split; [assumption|].
    apply andb_true_iff. split.
    + now apply Nat.eqb_eq.
    + now apply String.eqb_eq.
Qed.

Lemma user_perms_In (p : UserProfile) (n : string) :
  In n (user_perms db p) <-> user_override db p n true.
Proof.
  unfold user_perms, user_override. rewrite in_flat_map. split.
  - intros [q [Hq H]]. apply Permission_objects_In in Hq.
    apply in_map_iff in H. destruct H as [up [E H]].
    apply filter_In in H. destruct H as [Hup H].
    rewrite !andb_true_iff in H. destruct H as [[H1 H2] H3].
    apply Nat.eqb_eq in H1. apply Nat.eqb_eq in H2. apply eqb_prop in H3.
    exists up, q. repeat split; auto.
  - intros [up [q [Hup [Hq [E1 [E2 [E3 E4]]]]]]]. exists q.
    split; [now apply Permission_objects_In|].
    apply in_map_iff. exists up. split; [assumption|].
    apply filter_In. split; [assumption|].
    rewrite !andb_true_iff. repeat split.
    + now apply Nat.eqb_eq.
    + now apply Nat.eqb_eq.
    + rewrite E4. reflexivity.
Qed.
End Resolver.

(** C1. For a principal with a Profile, [has_permission] is true exactly
    when the role is 'superadmin', or a RolePermission row binds the role to
    the permission, or a UserPermission row grants it to the principal
    with [granted=True]; it is false otherwise.  [get_permissions] is the
    whole Permission catalog for a superadmin (every name of the table,
    each as often as the table has it, in the order of the model's
    [Meta.ordering]), and for every other principal the duplicate-free
    union of the names bound to the role and the names granted to the
    principal. *)
Theorem C1_resolver (db : Db) (p : UserProfile) :
  (forall n,
      has_permission db p n = true <->
      role p = "superadmin" \/ role_binding db (role p) n \/
      user_override db p n true) /\
  (forall n,
      ~ (role p = "superadmin" \/ role_binding db (role p) n \/
         user_override db p n true) ->
      has_permission db p n = false) /\
  (role p = "superadmin" ->
   Permutation (get_permissions db p) (map perm_name (permissions db)) /\
   exists rows,
     Permutation rows (permissions db) /\
     Sorted (fun a b => permission_leb a b = true) rows /\
     get_permissions db p = map perm_name rows) /\
  (role p <> "superadmin" ->
   NoDup (get_permissions db p) /\
   forall n,
     In n (get_permissions db p) <->
     role_binding db (role p) n \/ user_override db p n true).
Proof.
  split; [|split; [|split]].
  - intros n. apply has_permission_iff.
  - intros n H. destruct (has_permission db p n) eqn:E; [|reflexivity].
    apply has_permission_iff in E. contradiction.
  - intros H. unfold get_permissions, is_superadmin.
    apply String.eqb_eq in H. rewrite H. split.
    + apply Permutation_map, order_by_Permutation.
    + exists (Permission_objects db). split; [|split].
      * apply order_by_Permutation.
      * apply order_by_Sorted.
      * reflexivity.
  - intros H. unfold get_permissions, is_superadmin.
    apply String.eqb_neq in H. rewrite H. split.
    + apply py_set_NoDup.
    + intros n. rewrite py_set_In, in_app_iff, role_perms_In, user_perms_In.
      tauto.
Qed.

(** On the sample catalog the superadmin's list is sorted by category and
    name, so the row inserted last comes first. *)
Example get_permissions_superadmin_sorted :
  get_permissions Sample.db Sample.root_profile =
  ["export_data"; "view_dashboard"; "manage_billing";
   "manage_system_settings"].
Proof.
  reflexivity.
Qed.

(** The resolver on the sample data: the superadmin gets the catalog, the
    manager gets the name bound to the role, and bob gets the role's name
    and the granted override. *)
Lemma C1_resolver_witness :
  Permutation (get_permissions Sample.db Sample.root_profile)
    ["view_dashboard"; "manage_billing"; "manage_system_settings";
     "export_data"] /\
  (In "manage_billing" (get_permissions Sample.db Sample.bob_profile) <->
   role_binding Sample.db "user" "manage_billing" \/
   user_override Sample.db Sample.bob_profile "manage_billing" true) /\
  has_permission Sample.db Sample.mallory_profile "manage_system_settings"
  = false.
Proof.
  destruct (C1_resolver Sample.db Sample.root_profile) as [_ [_ [Hroot _]]].
  destruct (C1_resolver Sample.db Sample.bob_profile) as [_ [_ [_ Hbob]]].
  destruct (C1_resolver Sample.db Sample.mallory_profile) as [_ [Hm _]].
  split; [|split].
  - apply (proj1 (Hroot eq_refl)).
  - apply Hbob. simpl. discriminate.
  - apply Hm. intros [H | [H | H]].
    + discriminate H.
    + destruct H as [rp [q [Hrp [Hq [E1 [E2 E3]]]]]].
      simpl in Hrp, Hq.
      destruct Hq as [<- | [<- | [<- | [<- | []]]]]; simpl in E3;
        try discriminate.
      destruct Hrp as [<- | [<- | []]]; simpl in E2; discriminate.
    + destruct H as [up [q [Hup [Hq [E1 [E2 [E3 E4]]]]]]].
      simpl in Hup.
      destruct Hup as [<- | [<- | []]]; simpl in E1; discriminate.
Defined.

(** C8. A principal whose role is bound to a permission has it, whatever
    rows UserPermission holds; and inserting a row with [granted=False]
    changes no decision of [has_permission]: it grants nothing and revokes
    nothing. *)
Theorem C8_denied_override_inert (db : Db) (p : UserProfile) (n : string) :
  (role_binding db (role p) n -> has_permission db p n = true) /\
  (forall up,
      up_granted up = false ->
      has_permission (with_user_permission db up) p n =
      has_permission db p n) /\
  (role_binding db (role p) n ->
   user_override db p n false ->
   has_permission db p n = true).
Proof.
  assert (Hb : role_binding db (role p) n -> has_permission db p n = true).
  { intros H. apply has_permission_iff. tauto. }
  split; [exact Hb | split; [| auto]].
  intros up Hup. unfold has_permission.
  destruct (is_superadmin p); [reflexivity|].
  assert (E1 : role_permission_rows (with_user_permission db up) (role p) n
               = role_permission_rows db (role p) n) by reflexivity.
  assert (E2 : user_permission_rows (with_user_permission db up) p n
               = user_permission_rows db p n).
  { unfold user_permission_rows, with_user_permission. simpl.
    rewrite filter_app. simpl. rewrite Hup. simpl.
    rewrite andb_false_r. apply app_nil_r. }
  now rewrite E1, E2.
Qed.

Lemma C8_denied_override_inert_witness :
  has_permission Sample.db Sample.bob_profile "view_dashboard" = true.
Proof.
  destruct (C8_denied_override_inert Sample.db Sample.bob_profile
              "view_dashboard") as [_ [_ H]].
  apply H.
  - exists (mkRolePermission "user" 1), Sample.view_dashboard.
    simpl. repeat split; auto.
  - exists (mkUserPermission 4 1 false), Sample.view_dashboard.
    simpl. repeat split; auto.
Defined.

(** ** Tenant-scoped queries *)

Section Scoping.
Context {Row : Type} (row_organization : Row -> Organization).
Variable rows : list Row.

Lemma for_tenant_In (o : Organization) (r : Row) :
  In r (for_tenant row_organization rows (Some o)) <->
  In r rows /\ org_pk (row_organization r) = org_pk o.
Proof.
  simpl. rewrite filter_In. unfold org_eqb. now rewrite Nat.eqb_eq.
Qed.

Lemma for_user_unfold (u : User) :
  for_user row_organization rows u =
  for_tenant row_organization rows
             (TenantMiddleware.get_user_organization u).
Proof.
  unfold for_user, TenantMiddleware.get_user_organization.
  destruct u as [|pk nm [p|]]; simpl; reflexivity.
Qed.

Lemma accessible_by_not_superadmin (u : User) :
  (forall p, user_profile u = Some p -> role p <> "superadmin") ->
  accessible_by row_organization rows u = for_user row_organization rows u.
Proof.
  intros H. unfold accessible_by.
  destruct u as [|pk nm [p|]]; simpl; try reflexivity.
  specialize (H p eq_refl). apply String.eqb_neq in H.
  unfold is_superadmin. now rewrite H.
Qed.
End Scoping.

(** C2. Over the rows of any tenant-owned model: [for_tenant] of no
    organization is empty; [for_user] is empty for an unauthenticated
    principal and for one without an organization, and otherwise holds
    exactly the rows of the principal's organization; [accessible_by] is
    every row for a superadmin and [for_user] for everyone else; so no row
    that a non-superadmin principal gets from either helper belongs to an
    organization other than the principal's own. *)
Theorem C2_tenant_scoping {Row : Type} (row_organization : Row -> Organization)
        (rows : list Row) :
  for_tenant row_organization rows None = [] /\
  (forall u,
      is_authenticated u = false \/
      TenantMiddleware.get_user_organization u = None ->
      for_user row_organization rows u = []) /\
  (forall u o,
      TenantMiddleware.get_user_organization u = Some o ->
      forall r, In r (for_user row_organization rows u) <->
                In r rows /\ org_pk (row_organization r) = org_pk o) /\
  (forall u p,
      user_profile u = Some p -> role p = "superadmin" ->
      accessible_by row_organization rows u = rows) /\
  (forall u,
      (forall p, user_profile u = Some p -> role p <> "superadmin") ->
      accessible_by row_organization rows u =
      for_user row_organization rows u) /\
  (forall u,
      (forall p, user_profile u = Some p -> role p <> "superadmin") ->
      forall r,
        In r (for_user row_organization rows u) \/
        In r (accessible_by row_organization rows u) ->
        exists p o,
          user_profile u = Some p /\ organization p = Some o /\
          org_pk (row_organization r) = org_pk o).
Proof.
  split; [reflexivity|].
  split.
  { intros u [H | H].
    - unfold for_user. now rewrite H.
    - now rewrite for_user_unfold, H. }
  split.
  { intros u o H r. rewrite for_user_unfold, H. apply for_tenant_In. }
  split.
  { intros u p Hp Hr. unfold accessible_by.
    destruct u as [|pk nm q]; simpl in *; [discriminate|].
    subst q. unfold is_superadmin. rewrite Hr. reflexivity. }
  split.
  { intros u H. now apply accessible_by_not_superadmin. }
  intros u H r Hin.
  rewrite (accessible_by_not_superadmin row_organization rows u H) in Hin.
  assert (Hr : In r (for_user row_organization rows u)) by tauto.
  clear Hin. rewrite for_user_unfold in Hr.
  unfold TenantMiddleware.get_user_organization in Hr.
  destruct u as [|pk nm [p|]]; simpl in Hr; try contradiction.
  destruct (organization p) as [o|] eqn:Eo; [|contradiction].
  exists p, o. repeat split; auto.
  now apply (for_tenant_In row_organization rows o r).
Qed.

(** The helpers on four tasks of three organizations: bob, a user of Acme,
    gets the two tasks of Acme and nothing else; the superadmin gets all
    four; the unauthenticated principal gets none. *)
Lemma C2_tenant_scoping_witness :
  for_user Sample.task_organization Sample.tasks AnonymousUser = [] /\
  (In (Sample.mkTask Sample.acme "a2")
      (for_user Sample.task_organization Sample.tasks Sample.bob) <->
   In (Sample.mkTask Sample.acme "a2") Sample.tasks /\ 1 = 1) /\
  accessible_by Sample.task_organization Sample.tasks Sample.root
  = Sample.tasks /\
  accessible_by Sample.task_organization Sample.tasks Sample.bob
  = for_user Sample.task_organization Sample.tasks Sample.bob /\
  exists p o,
    user_profile Sample.bob = Some p /\ organization p = Some o /\
    org_pk (Sample.task_organization (Sample.mkTask Sample.acme "a1"))
    = org_pk o.
Proof.
  destruct (C2_tenant_scoping Sample.task_organization Sample.tasks)
    as [_ [H2 [H3 [H4 [H5 H6]]]]].
  split; [|split; [|split; [|split]]].
  - apply H2. left. reflexivity.
  - apply (H3 Sample.bob Sample.acme). reflexivity.
  - apply (H4 Sample.root Sample.root_profile); reflexivity.
  - apply H5. intros p E. injection E as <-. simpl. discriminate.
  - apply (H6 Sample.bob).
    + intros p E. injection E as <-. simpl. discriminate.
    + left. simpl. left. reflexivity.
Defined.

(** ** The tenant-isolation guard *)

(** On a request with a tenant attached, made by an authenticated
    principal with a Profile whose role is not 'superadmin', the guard
    answers 403 "Access denied" when the principal's organization is not
    the tenant, and lets the request go on when it is.  A superadmin passes
    whatever the tenant; an unauthenticated request passes. *)
Lemma tenant_isolation_with_profile (request : Request) :
  (forall t pk nm p,
      tenant request = Some t ->
      user request = AuthUser pk nm (Some p) ->
      role p <> "superadmin" ->
      (opt_org_eqb (organization p) (Some t) = false ->
       TenantMiddleware.TenantIsolation_process_request request =
       Some TenantMiddleware.access_denied /\
       status TenantMiddleware.access_denied = 403) /\
      (opt_org_eqb (organization p) (Some t) = true ->
       TenantMiddleware.TenantIsolation_process_request request = None)) /\
  (forall p,
      user_profile (user request) = Some p -> role p = "superadmin" ->
      TenantMiddleware.TenantIsolation_process_request request = None) /\
  (is_authenticated (user request) = false ->
   TenantMiddleware.TenantIsolation_process_request request = None).
Proof.
  unfold TenantMiddleware.TenantIsolation_process_request.
  split; [|split].
  - intros t pk nm p Ht Hu Hr. rewrite Hu, Ht. simpl.
    apply String.eqb_neq in Hr. unfold is_superadmin. rewrite Hr.
    split; intros E; rewrite E; simpl; auto.
  - intros p Hp Hr. destruct (user request) as [|pk nm q]; simpl in *.
    + reflexivity.
    + subst q. unfold is_superadmin. rewrite Hr. reflexivity.
  - intros H. rewrite H. reflexivity.
Qed.

(** Bob of Acme on a request scoped to Globex is refused, on one scoped to
    Acme he passes; the superadmin passes on Globex. *)
Lemma tenant_isolation_with_profile_example :
  TenantMiddleware.TenantIsolation_process_request
    (Sample.request_for Sample.bob "/api/org/globex/tasks/"
                        (Some Sample.globex))
  = Some TenantMiddleware.access_denied /\
  TenantMiddleware.TenantIsolation_process_request
    (Sample.request_for Sample.bob "/api/org/acme-corp/tasks/"
                        (Some Sample.acme))
  = None /\
  TenantMiddleware.TenantIsolation_process_request
    (Sample.request_for Sample.root "/api/org/globex/tasks/"
                        (Some Sample.globex))
  = None /\
  TenantMiddleware.TenantIsolation_process_request
    (Sample.request_for AnonymousUser "/api/org/globex/tasks/"
                        (Some Sample.globex))
  = None.
Proof.
  split; [|split; [|split]].
  - destruct (tenant_isolation_with_profile
                (Sample.request_for Sample.bob "/api/org/globex/tasks/"
                                    (Some Sample.globex))) as [H _].
    assert (Hn : role Sample.bob_profile <> "superadmin")
      by (simpl; discriminate).
    destruct (H Sample.globex 4 "bob" Sample.bob_profile
                eq_refl eq_refl Hn) as [Hd _].
    apply Hd. reflexivity.
  - destruct (tenant_isolation_with_profile
                (Sample.request_for Sample.bob "/api/org/acme-corp/tasks/"
                                    (Some Sample.acme))) as [H _].
    assert (Hn : role Sample.bob_profile <> "superadmin")
      by (simpl; discriminate).
    destruct (H Sample.acme 4 "bob" Sample.bob_profile
                eq_refl eq_refl Hn) as [_ Hp].
    apply Hp. reflexivity.
  - destruct (tenant_isolation_with_profile
                (Sample.request_for Sample.root "/api/org/globex/tasks/"
                                    (Some Sample.globex))) as [_ [H _]].
    apply (H Sample.root_profile); reflexivity.
  - destruct (tenant_isolation_with_profile
                (Sample.request_for AnonymousUser "/api/org/globex/tasks/"
                                    (Some Sample.globex))) as [_ [_ H]].
    apply H. reflexivity.
Defined.

(** C3. An authenticated principal who is no superadmin and whose own
    organization is not the attached tenant (the principal has none: the
    Profile row is missing), on a request scoped to Globex: the guard
    returns [None] and the request goes on, where a principal of another
    organization must be answered 403. *)
Theorem C3_isolation_passes_foreign_principal :
  let request :=
    Sample.request_for Sample.ghost "/api/org/globex/tasks/"
                       (Some Sample.globex) in
  is_authenticated (user request) = true /\
  (forall p, user_profile (user request) = Some p ->
             role p <> "superadmin") /\
  tenant request = Some Sample.globex /\
  opt_org_eqb (TenantMiddleware.get_user_organization (user request))
              (tenant request) = false /\
  TenantMiddleware.TenantIsolation_process_request request = None.
Proof.
  simpl. repeat split; try reflexivity. intros p H. discriminate H.
Qed.

(** ** Guards and a missing Profile *)

(** The permission guard and the role guard refuse an authenticated
    principal without a Profile with 403, whatever the view. *)
Lemma guards_deny_missing_profile (db : Db) (view : Request -> Response)
      (request : Request) (pk : nat) (nm : string) :
  user request = AuthUser pk nm None ->
  forall permission_name allowed_roles,
    Decorators.require_permission db permission_name view request
    = JsonResponse 403 "User profile not found" None /\
    Decorators.require_role allowed_roles view request
    = JsonResponse 403 "User profile not found" None.
Proof.
  intros Hu permission_name allowed_roles.
  unfold Decorators.require_permission, Decorators.require_role.
  rewrite Hu. simpl. split; reflexivity.
Qed.

(** C4. An authenticated principal without a Profile, on a request scoped
    to Acme: the permission guard and the role guard answer 403, the DRF
    class [BelongsToTenant] refuses, but the tenant-isolation middleware
    returns [None] and the request goes on. *)
Theorem C4_isolation_passes_missing_profile :
  let request :=
    Sample.request_for Sample.ghost "/api/org/acme-corp/tasks/"
                       (Some Sample.acme) in
  status (Decorators.require_permission Sample.db "view_dashboard"
            Sample.ok_view request) = 403 /\
  status (Decorators.require_role ["admin"] Sample.ok_view request) = 403 /\
  Decorators.BelongsToTenant_has_permission (Some Sample.ghost)
                                            (Some Sample.acme) = false /\
  TenantMiddleware.TenantIsolation_process_request request = None.
Proof.
  simpl. repeat split; reflexivity.
Qed.

(** ** The management hierarchy *)

(** C5. For every requester and every target object: a requester whose
    role is 'superadmin' may manage it; one whose role is 'admin' may
    manage it exactly when the target's role is 'user', so never when it
    is 'admin' or 'superadmin'; a requester of any other role may not, and
    neither may a requester without a role: no user on the request, an
    unauthenticated user, or a user without a Profile.  The requester's
    role is [request.user.profile.role]. *)
Theorem C5_can_manage_users (u : option User)
        (obj : RolePermissions.Target) :
  (request_role u = Some "superadmin" ->
   RolePermissions.CanManageUsers_has_object_permission u obj = true) /\
  (request_role u = Some "admin" ->
   (RolePermissions.CanManageUsers_has_object_permission u obj = true <->
    RolePermissions.target_role obj = Some "user") /\
   (RolePermissions.target_role obj = Some "admin" \/
    RolePermissions.target_role obj = Some "superadmin" ->
    RolePermissions.CanManageUsers_has_object_permission u obj = false)) /\
  (request_role u <> Some "superadmin" -> request_role u <> Some "admin" ->
   RolePermissions.CanManageUsers_has_object_permission u obj = false) /\
  (not_authenticated u = true ->
   RolePermissions.CanManageUsers_has_object_permission u obj = false) /\
  (request_role u = None ->
   RolePermissions.CanManageUsers_has_object_permission u obj = false).
Proof.
  assert (Hauth : forall r, request_role u = Some r ->
                            not_authenticated u = false).
  { intros r. destruct u as [[|pk nm [p|]]|]; simpl; congruence. }
  assert (Hother : request_role u <> Some "superadmin" ->
                   request_role u <> Some "admin" ->
                   RolePermissions.CanManageUsers_has_object_permission u obj
                   = false).
  { unfold RolePermissions.CanManageUsers_has_object_permission.
    intros H1 H2. destruct (not_authenticated u); [reflexivity|].
    destruct (request_role u) as [r|]; simpl; [|reflexivity].
    destruct (r =? "superadmin") eqn:E1.
    - apply String.eqb_eq in E1. subst r. now elim H1.
    - destruct (r =? "admin") eqn:E2; [|reflexivity].
      apply String.eqb_eq in E2. subst r. now elim H2. }
  split; [|split; [|split; [|split]]].
  - intros H. unfold RolePermissions.CanManageUsers_has_object_permission.
    rewrite (Hauth _ H), H. reflexivity.
  - intros H. unfold RolePermissions.CanManageUsers_has_object_permission.
    rewrite (Hauth _ H), H. simpl. split.
    + destruct (RolePermissions.target_role obj) as [t|]; simpl.
      * rewrite String.eqb_eq. split; congruence.
      * split; discriminate.
    + intros [E | E]; rewrite E; reflexivity.
  - exact Hother.
  - intros H. unfold RolePermissions.CanManageUsers_has_object_permission.
    now rewrite H.
  - intros H. apply Hother; rewrite H; discriminate.
Qed.

(** Alice, an admin, may manage bob (a user) but neither herself nor the
    superadmin; the superadmin may manage alice; the manager manages
    nobody; nor does an unauthenticated user, a user without a Profile or
    a request without a user. *)
Lemma C5_can_manage_users_witness :
  RolePermissions.CanManageUsers_has_object_permission
    (Some Sample.alice) (RolePermissions.TargetUser Sample.bob) = true /\
  RolePermissions.CanManageUsers_has_object_permission
    (Some Sample.alice) (RolePermissions.TargetUser Sample.alice) = false /\
  RolePermissions.CanManageUsers_has_object_permission
    (Some Sample.alice) (RolePermissions.TargetProfile Sample.root_profile)
  = false /\
  RolePermissions.CanManageUsers_has_object_permission
    (Some Sample.root) (RolePermissions.TargetUser Sample.alice) = true /\
  RolePermissions.CanManageUsers_has_object_permission
    (Some Sample.mallory) (RolePermissions.TargetUser Sample.bob) = false /\
  RolePermissions.CanManageUsers_has_object_permission
    (Some AnonymousUser) (RolePermissions.TargetUser Sample.bob) = false /\
  RolePermissions.CanManageUsers_has_object_permission
    (Some Sample.ghost) (RolePermissions.TargetUser Sample.bob) = false /\
  RolePermissions.CanManageUsers_has_object_permission
    None (RolePermissions.TargetUser Sample.bob) = false.
Proof.
  split; [|split; [|split; [|split; [|split; [|split; [|split]]]]]].
  - destruct (C5_can_manage_users (Some Sample.alice)
                (RolePermissions.TargetUser Sample.bob)) as [_ [H _]].
    destruct (H eq_refl) as [Hiff _]. apply Hiff. reflexivity.
  - destruct (C5_can_manage_users (Some Sample.alice)
                (RolePermissions.TargetUser Sample.alice)) as [_ [H _]].
    destruct (H eq_refl) as [_ Hno]. apply Hno. left. reflexivity.
  - destruct (C5_can_manage_users (Some Sample.alice)
                (RolePermissions.TargetProfile Sample.root_profile))
      as [_ [H _]].
    destruct (H eq_refl) as [_ Hno]. apply Hno. right. reflexivity.
  - destruct (C5_can_manage_users (Some Sample.root)
                (RolePermissions.TargetUser Sample.alice)) as [H _].
    apply H. reflexivity.
  - destruct (C5_can_manage_users (Some Sample.mallory)
                (RolePermissions.TargetUser Sample.bob)) as [_ [_ [H _]]].
    apply H; simpl; discriminate.
  - destruct (C5_can_manage_users (Some AnonymousUser)
                (RolePermissions.TargetUser Sample.bob))
      as [_ [_ [_ [H _]]]].
    apply H. reflexivity.
  - destruct (C5_can_manage_users (Some Sample.ghost)
                (RolePermissions.TargetUser Sample.bob))
      as [_ [_ [_ [_ H]]]].
    apply H. reflexivity.
  - destruct (C5_can_manage_users None
                (RolePermissions.TargetUser Sample.bob))
      as [_ [_ [_ [H _]]]].
    apply H. reflexivity.
Defined.

(** ** The role threshold *)

(** C7. For a view that declares a required role: an unauthenticated
    request is answered 401 before any weight is looked up; otherwise the
    request is answered 403 exactly when the weight of the role attached to
    the request is below the weight of the required role, and passes when
    it is not.  The weights are superadmin 3, admin 2, user 1, and 0 for
    every other role and for no role. *)
Theorem C7_role_threshold (request : Request) (required_role : string) :
  let weight := fun r => RoleAuthMiddleware.dict_get
                           RoleAuthMiddleware.role_hierarchy r 0 in
  required_role <> "" ->
  (is_authenticated (user request) = false ->
   exists resp,
     RoleAuthMiddleware.process_view request (Some required_role)
     = Some resp /\ status resp = 401) /\
  (is_authenticated (user request) = true ->
   (weight (user_role request) < weight (Some required_role) ->
    exists resp,
      RoleAuthMiddleware.process_view request (Some required_role)
      = Some resp /\ status resp = 403) /\
   (~ weight (user_role request) < weight (Some required_role) ->
    RoleAuthMiddleware.process_view request (Some required_role) = None)) /\
  weight (Some "superadmin") = 3 /\ weight (Some "admin") = 2 /\
  weight (Some "user") = 1 /\ weight None = 0 /\
  (forall r, r <> "superadmin" -> r <> "admin" -> r <> "user" ->
             weight (Some r) = 0).
Proof.
  intros weight Hreq. unfold RoleAuthMiddleware.process_view.
  apply String.eqb_neq in Hreq. simpl RoleAuthMiddleware.truthy.
  rewrite Hreq. simpl negb.
  split; [|split].
  - intros H. rewrite H. simpl. eexists. split; reflexivity.
  - intros H. rewrite H. simpl negb. cbv iota. fold (weight (user_role request)).
    fold (weight (Some required_role)). split.
    + intros Hlt. apply Nat.ltb_lt in Hlt. rewrite Hlt.
      eexists. split; reflexivity.
    + intros Hge. apply Nat.ltb_nlt in Hge. rewrite Hge. reflexivity.
  - repeat split; try reflexivity.
    intros r H1 H2 H3. subst weight.
    unfold RoleAuthMiddleware.role_hierarchy.
    cbn [RoleAuthMiddleware.dict_get].
    apply not_eq_sym in H1, H2, H3.
    apply String.eqb_neq in H1, H2, H3. now rewrite H1, H2, H3.
Qed.

(** A manager on a view that requires 'admin' is refused (weight 0 against
    2), an admin passes, and the unauthenticated request is answered 401. *)
Lemma C7_role_threshold_witness :
  (exists resp,
      RoleAuthMiddleware.process_view
        (Sample.request_for Sample.mallory "/api/admin-view/" None)
        (Some "admin") = Some resp /\ status resp = 403) /\
  RoleAuthMiddleware.process_view
    (Sample.request_for Sample.alice "/api/admin-view/" None)
    (Some "admin") = None /\
  (exists resp,
      RoleAuthMiddleware.process_view
        (Sample.request_for AnonymousUser "/api/admin-view/" None)
        (Some "admin") = Some resp /\ status resp = 401).
Proof.
  assert (Hne : "admin" <> "") by discriminate.
  split; [|split].
  - destruct (C7_role_threshold
                (Sample.request_for Sample.mallory "/api/admin-view/" None)
                "admin" Hne) as [_ [H _]].
    destruct (H eq_refl) as [Hlt _]. apply Hlt. simpl. lia.
  - destruct (C7_role_threshold
                (Sample.request_for Sample.alice "/api/admin-view/" None)
                "admin" Hne) as [_ [H _]].
    destruct (H eq_refl) as [_ Hge]. apply Hge. simpl. lia.
  - destruct (C7_role_threshold
                (Sample.request_for AnonymousUser "/api/admin-view/" None)
                "admin" Hne) as [H _].
    apply H. reflexivity.
Defined.

(** ** The two admin-or-above gates *)

(** Away from the role 'manager' the two classes decide alike. *)
Lemma IsAdminOrAbove_agree_except_manager (u : option User) :
  request_role u <> Some "manager" ->
  RolePermissions.IsAdminOrAbove_has_permission u =
  Decorators.IsAdminOrAbove_has_permission u.
Proof.
  unfold RolePermissions.IsAdminOrAbove_has_permission,
    Decorators.IsAdminOrAbove_has_permission, request_role.
  destruct u as [[|pk nm [p|]]|]; simpl; try reflexivity.
  intros H. unfold is_admin_or_above. simpl.
  destruct (role p =? "manager") eqn:E.
  - apply String.eqb_eq in E. rewrite E in H. now elim H.
  - now rewrite !orb_false_r.
Qed.

(** C10. On an authenticated principal whose Profile has the role
    'manager' the class of the role_permissions module refuses and the
    class of the decorators module, through [is_admin_or_above], grants:
    the two gates do not decide the same predicate. *)
Theorem C10_gates_differ_on_manager :
  RolePermissions.IsAdminOrAbove_has_permission (Some Sample.mallory)
  = false /\
  Decorators.IsAdminOrAbove_has_permission (Some Sample.mallory) = true.
Proof.
  split; reflexivity.
Qed.

(** ** Lookups under a unique constraint *)

Section UniqueLookup.
Context {Row K : Type} (key : Row -> K) (lookup : Row -> bool).
(** The lookup fixes the columns of the constraint. *)
Hypothesis lookup_key :
  forall a b, lookup a = true -> lookup b = true -> key a = key b.

Lemma filter_nil_iff (rows : list Row) :
  filter lookup rows = [] <-> forall r, In r rows -> lookup r = false.
Proof.
  induction rows as [|x xs IH]; simpl.
  - split; [intros _ r [] | reflexivity].
  - destruct (lookup x) eqn:E.
    + split; [discriminate|]. intros H. specialize (H x (or_introl eq_refl)).
      congruence.
    + rewrite IH. split.
      * intros H r [<- | Hr]; auto.
      * intros H r Hr. apply H. now right.
Qed.

Lemma filter_at_most_one (rows : list Row) :
  NoDup (map key rows) ->
  filter lookup rows = [] \/ exists a, filter lookup rows = [a].
Proof.
  induction rows as [|x xs IH]; simpl; intros Hnd; [now left|].
  inversion Hnd as [|k ks Hnotin Hnd']; subst.
  destruct (lookup x) eqn:E.
  - right. exists x. f_equal. apply filter_nil_iff. intros r Hr.
    destruct (lookup r) eqn:Er; [|reflexivity].
    exfalso. apply Hnotin. rewrite (lookup_key x r E Er).
    now apply in_map.
  - now apply IH.
Qed.

Lemma objects_get_found (rows : list Row) (o : Row) :
  NoDup (map key rows) -> In o rows -> lookup o = true ->
  objects_get lookup rows = Ok o.
Proof.
  intros Hnd Hin Ho. unfold objects_get.
  assert (Hf : In o (filter lookup rows)) by (apply filter_In; auto).
  destruct (filter_at_most_one rows Hnd) as [E | [a E]]; rewrite E in *.
  - contradiction.
  - destruct Hf as [-> | []]. reflexivity.
Qed.

Lemma objects_get_cases (rows : list Row) :
  NoDup (map key rows) ->
  (objects_get lookup rows = Raise DoesNotExist /\
   forall r, In r rows -> lookup r = false) \/
  (exists a, objects_get lookup rows = Ok a /\ In a rows /\
             lookup a = true).
Proof.
  intros Hnd. unfold objects_get.
  destruct (filter_at_most_one rows Hnd) as [E | [a E]]; rewrite E.
  - left. split; [reflexivity | now apply filter_nil_iff].
  - right. exists a. split; [reflexivity|].
    apply filter_In. rewrite E. now left.
Qed.
End UniqueLookup.

Lemma objects_get_missing {Row : Type} (lookup : Row -> bool)
      (rows : list Row) :
  (forall r, In r rows -> lookup r = false) ->
  objects_get lookup rows = Raise DoesNotExist.
Proof.
  intros H. unfold objects_get.
  assert (E : filter lookup rows = []).
  { induction rows as [|x xs IH]; simpl; [reflexivity|].
    rewrite (H x (or_introl eq_refl)). apply IH.
    intros r Hr. apply H. now right. }
  now rewrite E.
Qed.

(** ** The tenant resolver *)

Lemma index_first (x : string) (pre rest : list string) :
  ~ In x pre -> index x (pre ++ x :: rest) = Some (List.length pre).
Proof.
  induction pre as [|y ys IH]; simpl; intros H.
  - now rewrite String.eqb_refl.
  - destruct (y =? x) eqn:E.
    + apply String.eqb_eq in E. tauto.
    + rewrite IH by tauto. reflexivity.
Qed.

Lemma nth_error_after (x slug : string) (pre rest : list string) :
  nth_error (pre ++ x :: slug :: rest) (List.length pre + 1) = Some slug.
Proof.
  induction pre as [|y ys IH]; simpl; [reflexivity | assumption].
Qed.

Lemma slug_lookup_key (slug : string) (a b : Organization) :
  (org_slug a =? slug) = true -> (org_slug b =? slug) = true ->
  org_slug a = org_slug b.
Proof.
  intros Ha Hb. apply String.eqb_eq in Ha, Hb. congruence.
Qed.

(** C6. On a path that starts with no allowlisted prefix, with the slugs
    of the Organization table unique: if no segment is 'org', the request
    goes on with no tenant; if the first 'org' segment is followed by a
    non-empty slug that no Organization carries, the middleware answers
    404 "Organization not found" at once; if an Organization carries the
    slug, it is attached as the tenant and the request goes on.  Whatever
    the path, the outcome is one of these three. *)
Theorem C6_tenant_resolver (db : Db) (request : Request) :
  let cleared := set_org_slug (set_tenant request None) None in
  let path_parts := split "/"%char (path request) in
  let outcome := TenantMiddleware.TenantDetection_process_request
                   db request in
  NoDup (map org_slug (organizations db)) ->
  any_startswith (path request) TenantMiddleware.skip_paths = false ->
  (~ In "org" path_parts -> outcome = TenantMiddleware.Return cleared None) /\
  (forall pre slug rest,
      path_parts = (pre ++ "org" :: slug :: rest)%list ->
      ~ In "org" pre -> slug <> "" ->
      ((forall o, In o (organizations db) -> org_slug o <> slug) ->
       outcome =
       TenantMiddleware.Return (set_org_slug cleared (Some slug))
         (Some (TenantMiddleware.not_found slug)) /\
       status (TenantMiddleware.not_found slug) = 404 /\
       error (TenantMiddleware.not_found slug) = "Organization not found") /\
      (forall o, In o (organizations db) -> org_slug o = slug ->
       outcome =
       TenantMiddleware.Return
         (set_tenant (set_org_slug cleared (Some slug)) (Some o)) None)) /\
  ((exists request',
       outcome = TenantMiddleware.Return request' None /\
       tenant request' = None) \/
   (exists request' slug,
       outcome = TenantMiddleware.Return request'
                   (Some (TenantMiddleware.not_found slug)) /\
       tenant request' = None) \/
   (exists request' o,
       outcome = TenantMiddleware.Return request' None /\
       tenant request' = Some o /\ In o (organizations db))).
Proof.
  intros cleared path_parts outcome Hnd Hskip.
  subst outcome. unfold TenantMiddleware.TenantDetection_process_request.
  fold cleared. change (path cleared) with (path request).
  rewrite Hskip. fold path_parts.
  split; [|split].
  - intros Hno. apply str_in_not_In in Hno. now rewrite Hno.
  - intros pre slug rest Hparts Hpre Hslug.
    assert (Hin : str_in "org" path_parts = true).
    { apply str_in_In. rewrite Hparts. apply in_or_app. right. now left. }
    rewrite Hin, Hparts, (index_first "org" pre (slug :: rest) Hpre).
    assert (Hlen : (List.length pre + 1
                    <? List.length (pre ++ "org" :: slug :: rest))%nat = true).
    { apply Nat.ltb_lt. rewrite length_app. simpl. lia. }
    rewrite Hlen, nth_error_after.
    apply String.eqb_neq in Hslug. rewrite Hslug. simpl negb. cbv iota.
    split.
    + intros Hnone.
      rewrite (objects_get_missing (fun o => org_slug o =? slug)).
      * repeat split; reflexivity.
      * intros r Hr. apply String.eqb_neq. now apply Hnone.
    + intros o Ho Eo.
      rewrite (objects_get_found org_slug (fun o => org_slug o =? slug)
                 (slug_lookup_key slug) (organizations db) o Hnd Ho).
      * reflexivity.
      * now apply String.eqb_eq.
  - destruct (str_in "org" path_parts);
      [|left; exists cleared; split; reflexivity].
    destruct (index "org" path_parts) as [i|];
      [|left; exists cleared; split; reflexivity].
    destruct (i + 1 <? List.length path_parts)%nat;
      [|left; exists cleared; split; reflexivity].
    destruct (nth_error path_parts (i + 1)) as [slug|];
      [|left; exists cleared; split; reflexivity].
    destruct (slug =? "") eqn:Es; simpl negb; cbv iota;
      [left; exists cleared; split; reflexivity|].
    destruct (objects_get_cases org_slug (fun o => org_slug o =? slug)
                (slug_lookup_key slug) (organizations db) Hnd)
      as [[E _] | [a [E [Ha _]]]]; rewrite E.
    + right. left. eexists. exists slug. split; reflexivity.
    + right. right. eexists. exists a. repeat split; try reflexivity. exact Ha.
Qed.

(** The resolver on the sample table: a path without the marker, a slug
    that no organization carries, and the slug of Acme. *)
Lemma C6_tenant_resolver_witness :
  TenantMiddleware.TenantDetection_process_request Sample.db
    (Sample.request_for Sample.bob "/api/tasks/" None)
  = TenantMiddleware.Return
      (Sample.request_for Sample.bob "/api/tasks/" None) None /\
  TenantMiddleware.TenantDetection_process_request Sample.db
    (Sample.request_for Sample.bob "/api/org/nowhere/tasks/" None)
  = TenantMiddleware.Return
      (set_org_slug (Sample.request_for Sample.bob "/api/org/nowhere/tasks/"
                                        None) (Some "nowhere"))
      (Some (TenantMiddleware.not_found "nowhere")) /\
  TenantMiddleware.TenantDetection_process_request Sample.db
    (Sample.request_for Sample.bob "/api/org/acme-corp/tasks/" None)
  = TenantMiddleware.Return
      (set_tenant
         (set_org_slug (Sample.request_for Sample.bob
                          "/api/org/acme-corp/tasks/" None)
                       (Some "acme-corp"))
         (Some Sample.acme)) None.
Proof.
  assert (Hnd : NoDup (map org_slug (organizations Sample.db))).
  { simpl. repeat constructor; simpl; intuition discriminate. }
  split; [|split].
  - destruct (C6_tenant_resolver Sample.db
                (Sample.request_for Sample.bob "/api/tasks/" None)
                Hnd eq_refl) as [H _].
    apply H. simpl. intuition discriminate.
  - destruct (C6_tenant_resolver Sample.db
                (Sample.request_for Sample.bob "/api/org/nowhere/tasks/" None)
                Hnd eq_refl) as [_ [H _]].
    assert (Hpre : ~ In "org" [""; "api"]) by (simpl; intuition discriminate).
    assert (Hslug : "nowhere" <> "") by discriminate.
    destruct (H [""; "api"] "nowhere" ["tasks"; ""] eq_refl Hpre Hslug)
      as [Hmiss _].
    apply Hmiss. intros o Ho. simpl in Ho.
    destruct Ho as [<- | [<- | [<- | []]]]; simpl; discriminate.
  - destruct (C6_tenant_resolver Sample.db
                (Sample.request_for Sample.bob "/api/org/acme-corp/tasks/"
                                    None)
                Hnd eq_refl) as [_ [H _]].
    assert (Hpre : ~ In "org" [""; "api"]) by (simpl; intuition discriminate).
    assert (Hslug : "acme-corp" <> "") by discriminate.
    destruct (H [""; "api"] "acme-corp" ["tasks"; ""] eq_refl Hpre Hslug)
      as [_ Hhit].
    apply (Hhit Sample.acme).
    + simpl. now left.
    + reflexivity.
Defined.

(** ** The seed command *)

Lemma NoDup_snoc {A : Type} (l : list A) (a : A) :
  NoDup l -> ~ In a l -> NoDup (l ++ [a]).
Proof.
  induction l as [|x xs IH]; simpl; intros Hnd Hnotin.
  - constructor; [intros [] | constructor].
  - inversion Hnd as [|y ys Hx Hxs]; subst. constructor.
    + rewrite in_app_iff. simpl. intuition congruence.
    + apply IH; tauto.
Qed.

Module SeedFacts.
Import SeedPermissions.

Definition names (db : Db) : list string := map perm_name (permissions db).
Definition keys (db : Db) : list (string * nat) :=
  map role_permission_key (role_permissions db).

(** The role holds the permission that [get(name=n)] finds, if any. *)
Definition bound (db : Db) (r n : string) : Prop :=
  forall q,
    objects_get (fun q => perm_name q =? n) (permissions db) = Ok q ->
    In (r, perm_pk q) (keys db).

Lemma set_permissions_same (db : Db) :
  set_permissions db (permissions db) = db.
Proof. now destruct db. Qed.

Lemma set_role_permissions_same (db : Db) :
  set_role_permissions db (role_permissions db) = db.
Proof. now destruct db. Qed.

Lemma name_lookup_key (n : string) (a b : Permission) :
  (perm_name a =? n) = true -> (perm_name b =? n) = true ->
  perm_name a = perm_name b.
Proof.
  intros Ha Hb. apply String.eqb_eq in Ha, Hb. congruence.
Qed.

Lemma pair_lookup_key (r : string) (pk : nat) (a b : RolePermission) :
  (rp_role a =? r) && Nat.eqb (rp_permission a) pk = true ->
  (rp_role b =? r) && Nat.eqb (rp_permission b) pk = true ->
  role_permission_key a = role_permission_key b.
Proof.
  intros Ha Hb. apply andb_true_iff in Ha, Hb.
  destruct Ha as [Ha1 Ha2], Hb as [Hb1 Hb2].
  apply String.eqb_eq in Ha1, Hb1. apply Nat.eqb_eq in Ha2, Hb2.
  unfold role_permission_key. congruence.
Qed.

(** *** The first loop *)

Lemma create_permissions_runs (data : list PermData) :
  forall db c,
    NoDup (names db) ->
    exists db' c',
      create_permissions data db c = Ok (db', c') /\
      NoDup (names db') /\
      incl (names db) (names db') /\
      (forall d, In d data -> In (name d) (names db')) /\
      List.length (permissions db') + c = List.length (permissions db) + c' /\
      role_permissions db' = role_permissions db.
Proof.
  induction data as [|d rest IH]; intros db c Hnd.
  - exists db, c. simpl. repeat split; auto using incl_refl.
    intros d [].
  - simpl. unfold get_or_create.
    destruct (objects_get_cases perm_name (fun q => perm_name q =? name d)
                (name_lookup_key (name d)) (permissions db) Hnd)
      as [[E Hnone] | [a [E [Ha Hl]]]]; rewrite E; simpl.
    + set (row := mkPermission (next_pk (map perm_pk (permissions db)))
                    (name d) (category d) (description d)).
      set (db1 := set_permissions db (permissions db ++ [row])).
      assert (Hnd1 : NoDup (names db1)).
      { unfold names, db1. simpl. rewrite map_app. simpl.
        apply NoDup_snoc; [exact Hnd|].
        intros Hin. apply in_map_iff in Hin. destruct Hin as [q [Eq Hq]].
        specialize (Hnone q Hq). apply String.eqb_neq in Hnone.
        contradiction. }
      destruct (IH db1 (c + 1) Hnd1)
        as [db' [c' [Hrun [Hnd' [Hincl [Hall [Hlen Hrp]]]]]]].
      exists db', c'. rewrite Hrun.
      assert (Hinc1 : incl (names db) (names db1)).
      { unfold names, db1. simpl. rewrite map_app.
        apply incl_appl, incl_refl. }
      repeat split; auto.
      * eapply incl_tran; eauto.
      * intros d' [<- | Hd']; [|now apply Hall].
        apply Hincl. unfold names, db1. simpl. rewrite map_app.
        apply in_or_app. right. now left.
      * unfold db1 in Hlen. simpl in Hlen. rewrite length_app in Hlen.
        simpl in Hlen. lia.
    + rewrite set_permissions_same.
      destruct (IH db c Hnd)
        as [db' [c' [Hrun [Hnd' [Hincl [Hall [Hlen Hrp]]]]]]].
      exists db', c'. rewrite Hrun. repeat split; auto.
      intros d' [<- | Hd']; [|now apply Hall].
      apply Hincl. apply String.eqb_eq in Hl. rewrite <- Hl.
      unfold names. now apply in_map.
Qed.

Lemma create_permissions_stable (data : list PermData) :
  forall db c,
    NoDup (names db) ->
    (forall d, In d data -> In (name d) (names db)) ->
    create_permissions data db c = Ok (db, c).
Proof.
  induction data as [|d rest IH]; intros db c Hnd Hall; [reflexivity|].
  simpl. unfold get_or_create.
  assert (Hin : In (name d) (names db)) by (apply Hall; now left).
  apply in_map_iff in Hin. destruct Hin as [q [Eq Hq]].
  rewrite (objects_get_found perm_name (fun q => perm_name q =? name d)
             (name_lookup_key (name d)) (permissions db) q Hnd Hq)
    by now apply String.eqb_eq.
  simpl. rewrite set_permissions_same. apply IH; [assumption|].
  intros d' Hd'. apply Hall. now right.
Qed.
(** *** The second loop *)

Lemma keys_lookup (db : Db) (r : string) (pk : nat) :
  In (r, pk) (keys db) ->
  exists rp, In rp (role_permissions db) /\
             (rp_role rp =? r) && Nat.eqb (rp_permission rp) pk = true.
Proof.
  intros H. apply in_map_iff in H. destruct H as [rp [E Hrp]].
  exists rp. split; [assumption|].
  unfold role_permission_key in E. injection E as E1 E2.
  apply andb_true_iff. split.
  - now apply String.eqb_eq.
  - now apply Nat.eqb_eq.
Qed.

Lemma bound_mono (db db' : Db) (r n : string) :
  permissions db' = permissions db ->
  incl (keys db) (keys db') ->
  bound db r n -> bound db' r n.
Proof.
  intros Hp Hk Hb q Hq. apply Hk. apply Hb. now rewrite <- Hp.
Qed.

Lemma create_role_mappings_runs (r : string) (permission_names : list string) :
  forall db c,
    unique_constraints db ->
    exists db' c',
      create_role_mappings r permission_names db c = Ok (db', c') /\
      unique_constraints db' /\
      permissions db' = permissions db /\
      incl (keys db) (keys db') /\
      (forall n, In n permission_names -> bound db' r n) /\
      List.length (role_permissions db') + c
      = List.length (role_permissions db) + c'.
Proof.
  induction permission_names as [|n rest IH]; intros db c Hu.
  - exists db, c. simpl. repeat split; auto using incl_refl; try apply Hu.
    intros n [].
  - destruct Hu as [Hnames Hkeys]. simpl.
    destruct (objects_get_cases perm_name (fun q => perm_name q =? n)
                (name_lookup_key n) (permissions db) Hnames)
      as [[E Hnone] | [q [E [Hq Hl]]]]; rewrite E.
    + destruct (IH db c (conj Hnames Hkeys))
        as [db' [c' [Hrun [Hu' [Hp [Hincl [Hall Hlen]]]]]]].
      exists db', c'. rewrite Hrun. repeat split; auto; try apply Hu'.
      intros n' [<- | Hn']; [|now apply Hall].
      intros q Hq. rewrite Hp, E in Hq. discriminate.
    + unfold get_or_create.
      destruct (objects_get_cases role_permission_key
                  (fun rp => (rp_role rp =? r)
                             && Nat.eqb (rp_permission rp) (perm_pk q))
                  (pair_lookup_key r (perm_pk q))
                  (role_permissions db) Hkeys)
        as [[E2 Hnone] | [rp [E2 [Hrp Hl2]]]]; rewrite E2; simpl.
      * set (db1 := set_role_permissions db
                      (role_permissions db
                       ++ [mkRolePermission r (perm_pk q)])).
        assert (Hk1 : keys db1 = (keys db ++ [(r, perm_pk q)])%list).
        { unfold keys, db1. simpl. now rewrite map_app. }
        assert (Hu1 : unique_constraints db1).
        { split; [exact Hnames|]. fold (keys db1). rewrite Hk1.
          apply NoDup_snoc; [exact Hkeys|].
          intros Hin. apply keys_lookup in Hin.
          destruct Hin as [rp [Hrp Hl2]].
          rewrite (Hnone rp Hrp) in Hl2. discriminate. }
        destruct (IH db1 (c + 1) Hu1)
          as [db' [c' [Hrun [Hu' [Hp [Hincl [Hall Hlen]]]]]]].
        exists db', c'. rewrite Hrun.
        assert (Hinc1 : incl (keys db) (keys db1)).
        { rewrite Hk1. apply incl_appl, incl_refl. }
        repeat split; auto; try apply Hu'.
        -- eapply incl_tran; eauto.
        -- intros n' [<- | Hn']; [|now apply Hall].
           intros q' Hq'. rewrite Hp in Hq'. simpl in Hq'.
           rewrite E in Hq'. injection Hq' as <-.
           apply Hincl. rewrite Hk1. apply in_or_app. right. now left.
        -- unfold db1 in Hlen. simpl in Hlen. rewrite length_app in Hlen.
           simpl in Hlen. lia.
      * rewrite set_role_permissions_same.
        destruct (IH db c (conj Hnames Hkeys))
          as [db' [c' [Hrun [Hu' [Hp [Hincl [Hall Hlen]]]]]]].
        exists db', c'. rewrite Hrun. repeat split; auto; try apply Hu'.
        intros n' [<- | Hn']; [|now apply Hall].
        intros q' Hq'. rewrite Hp, E in Hq'. injection Hq' as <-.
        apply Hincl. apply andb_true_iff in Hl2. destruct Hl2 as [L1 L2].
        apply String.eqb_eq in L1. apply Nat.eqb_eq in L2.
        unfold keys. apply in_map_iff. exists rp. split; [|assumption].
        unfold role_permission_key. congruence.
Qed.

Lemma create_role_mappings_stable (r : string)
      (permission_names : list string) :
  forall db c,
    unique_constraints db ->
    (forall n, In n permission_names -> bound db r n) ->
    create_role_mappings r permission_names db c = Ok (db, c).
Proof.
  induction permission_names as [|n rest IH]; intros db c Hu Hall;
    [reflexivity|].
  assert (Hrest : forall n', In n' rest -> bound db r n')
    by (intros n' Hn'; apply Hall; now right).
  destruct Hu as [Hnames Hkeys]. simpl.
  destruct (objects_get_cases perm_name (fun q => perm_name q =? n)
              (name_lookup_key n) (permissions db) Hnames)
    as [[E Hnone] | [q [E [Hq Hl]]]]; rewrite E.
  - apply IH; [split|]; assumption.
  - assert (Hb : In (r, perm_pk q) (keys db))
      by (apply (Hall n); [now left | exact E]).
    apply keys_lookup in Hb. destruct Hb as [rp [Hrp Hl2]].
    unfold get_or_create.
    rewrite (objects_get_found role_permission_key
               (fun rp => (rp_role rp =? r)
                          && Nat.eqb (rp_permission rp) (perm_pk q))
               (pair_lookup_key r (perm_pk q))
               (role_permissions db) rp Hkeys Hrp Hl2).
    simpl. rewrite set_role_permissions_same.
    apply IH; [split|]; assumption.
Qed.

Lemma create_mappings_runs (m : list (string * list string)) :
  forall db c,
    unique_constraints db ->
    exists db' c',
      create_mappings m db c = Ok (db', c') /\
      unique_constraints db' /\
      permissions db' = permissions db /\
      incl (keys db) (keys db') /\
      (forall r ns n, In (r, ns) m -> In n ns -> bound db' r n) /\
      List.length (role_permissions db') + c
      = List.length (role_permissions db) + c'.
Proof.
  induction m as [|[r ns] rest IH]; intros db c Hu.
  - exists db, c. simpl. repeat split; auto using incl_refl; try apply Hu.
    intros r ns n [].
  - simpl.
    destruct (create_role_mappings_runs r ns db c Hu)
      as [db1 [c1 [Hrun1 [Hu1 [Hp1 [Hincl1 [Hall1 Hlen1]]]]]]].
    rewrite Hrun1. simpl.
    destruct (IH db1 c1 Hu1)
      as [db' [c' [Hrun [Hu' [Hp [Hincl [Hall Hlen]]]]]]].
    exists db', c'. rewrite Hrun. repeat split; try apply Hu'.
    + congruence.
    + eapply incl_tran; eauto.
    + intros r' ns' n [E | Hin] Hn.
      * injection E as <- <-.
        apply (bound_mono db1 db' r n Hp Hincl). now apply Hall1.
      * eapply Hall; eauto.
    + lia.
Qed.

Lemma create_mappings_stable (m : list (string * list string)) :
  forall db c,
    unique_constraints db ->
    (forall r ns n, In (r, ns) m -> In n ns -> bound db r n) ->
    create_mappings m db c = Ok (db, c).
Proof.
  induction m as [|[r ns] rest IH]; intros db c Hu Hall; [reflexivity|].
  simpl. rewrite (create_role_mappings_stable r ns db c Hu).
  - simpl. apply IH; [assumption|].
    intros r' ns' n Hin Hn. apply (Hall r' ns' n); [now right | assumption].
  - intros n Hn. apply (Hall r ns n); [now left | assumption].
Qed.
End SeedFacts.

(** C9. On tables that meet the schema's unique constraints a run of the
    seed command succeeds and reports the numbers of Permission and
    RolePermission rows it created; a second run succeeds too, leaves the
    tables as the first run left them (so the row counts are those after
    one run) and reports zero rows created for both. *)
Theorem C9_seed_idempotent (db : Db) :
  SeedPermissions.unique_constraints db ->
  exists r1 r2,
    SeedPermissions.handle db = Ok r1 /\
    SeedPermissions.handle (SeedPermissions.db_after r1) = Ok r2 /\
    SeedPermissions.db_after r2 = SeedPermissions.db_after r1 /\
    SeedPermissions.created_count r2 = 0 /\
    SeedPermissions.mapping_count r2 = 0 /\
    List.length (permissions (SeedPermissions.db_after r2))
    = List.length (permissions (SeedPermissions.db_after r1)) /\
    List.length (role_permissions (SeedPermissions.db_after r2))
    = List.length (role_permissions (SeedPermissions.db_after r1)) /\
    List.length (permissions (SeedPermissions.db_after r1))
    = List.length (permissions db) + SeedPermissions.created_count r1 /\
    List.length (role_permissions (SeedPermissions.db_after r1))
    = List.length (role_permissions db) + SeedPermissions.mapping_count r1.
Proof.
  intros [Hnames Hkeys]. unfold SeedPermissions.handle.
  destruct (SeedFacts.create_permissions_runs
              SeedPermissions.permissions_data db 0 Hnames)
    as [db1 [c1 [Hrun1 [Hnd1 [_ [Hall1 [Hlen1 Hrp1]]]]]]].
  assert (Hu1 : SeedPermissions.unique_constraints db1).
  { split; [exact Hnd1|]. now rewrite Hrp1. }
  destruct (SeedFacts.create_mappings_runs
              SeedPermissions.role_permissions_map db1 0 Hu1)
    as [db2 [c2 [Hrun2 [Hu2 [Hp2 [_ [Hall2 Hlen2]]]]]]].
  exists (SeedPermissions.mkReport db2 c1 c2),
         (SeedPermissions.mkReport db2 0 0).
  rewrite Hrun1. cbn [bind]. rewrite Hrun2. cbn [bind].
  cbn [SeedPermissions.db_after SeedPermissions.created_count
       SeedPermissions.mapping_count].
  rewrite (SeedFacts.create_permissions_stable
             SeedPermissions.permissions_data db2 0).
  - cbn [bind].
    rewrite (SeedFacts.create_mappings_stable
               SeedPermissions.role_permissions_map db2 0 Hu2 Hall2).
    cbn [bind]. repeat split; try reflexivity.
    + rewrite Hp2. lia.
    + rewrite <- Hrp1. lia.
  - apply Hu2.
  - intros d Hd. unfold SeedFacts.names. rewrite Hp2. now apply Hall1.
Qed.

(** The seed command on empty tables, which meet the constraints: both
    runs succeed and the second one creates nothing. *)
Lemma C9_seed_idempotent_witness :
  SeedPermissions.unique_constraints (mkDb [] [] [] []) /\
  exists r1 r2,
    SeedPermissions.handle (mkDb [] [] [] []) = Ok r1 /\
    SeedPermissions.handle (SeedPermissions.db_after r1) = Ok r2 /\
    SeedPermissions.db_after r2 = SeedPermissions.db_after r1 /\
    SeedPermissions.created_count r2 = 0 /\
    SeedPermissions.mapping_count r2 = 0.
Proof.
  assert (Hu : SeedPermissions.unique_constraints (mkDb [] [] [] []))
    by (split; constructor).
  split; [exact Hu|].
  destruct (C9_seed_idempotent (mkDb [] [] [] []) Hu)
    as [r1 [r2 [H1 [H2 [H3 [H4 [H5 _]]]]]]].
  exists r1, r2. repeat split; assumption.
Defined.

(** * Further properties of the code *)

(** ** The resolver and the permission list agree *)

(** X1. Every name [get_permissions] lists is a permission
    [has_permission] grants; for a principal who is not a superadmin the
    converse holds too, so the list is exactly the set of granted names. *)
Theorem X1_list_agrees_with_check (db : Db) (p : UserProfile) (n : string) :
  (In n (get_permissions db p) -> has_permission db p n = true) /\
  (role p <> "superadmin" ->
   has_permission db p n = true -> In n (get_permissions db p)).
Proof.
  split.
  - intros Hin. apply has_permission_iff.
    unfold get_permissions, is_superadmin in Hin.
    destruct (role p =? "superadmin") eqn:E.
    + left. now apply String.eqb_eq.
    + right. rewrite py_set_In, in_app_iff, role_perms_In, user_perms_In
        in Hin. exact Hin.
  - intros Hns Hp. apply has_permission_iff in Hp.
    unfold get_permissions, is_superadmin.
    apply String.eqb_neq in Hns. rewrite Hns.
    rewrite py_set_In, in_app_iff, role_perms_In, user_perms_In.
    apply String.eqb_neq in Hns. tauto.
Qed.

Lemma X1_list_agrees_with_check_witness :
  has_permission Sample.db Sample.bob_profile "manage_billing" = true /\
  In "manage_billing" (get_permissions Sample.db Sample.bob_profile).
Proof.
  destruct (X1_list_agrees_with_check Sample.db Sample.bob_profile
              "manage_billing") as [H1 H2].
  assert (Hin : In "manage_billing"
                   (get_permissions Sample.db Sample.bob_profile)).
  { apply H2; [simpl; discriminate | reflexivity]. }
  split; [apply H1; exact Hin | exact Hin].
Defined.

(** ** Tenant-scoped queries on single rows and on requests *)

Section ScopingMore.
Context {Row : Type} (row_organization : Row -> Organization).
Variable rows : list Row.

Lemma for_tenant_same_pk (a b : Organization) :
  org_pk a = org_pk b ->
  for_tenant row_organization rows (Some a) =
  for_tenant row_organization rows (Some b).
Proof.
  intros E. simpl. apply filter_ext. intros r. unfold org_eqb.
  now rewrite E.
Qed.
End ScopingMore.

(** X2. The single-row check mirrors the query: a row is in
    [accessible_by(user)] exactly when it is in the query set and
    [is_accessible_by(user)] holds for it. *)
Theorem X2_row_check_mirrors_query {Row : Type}
        (row_organization : Row -> Organization) (rows : list Row)
        (u : User) (r : Row) :
  In r (accessible_by row_organization rows u) <->
  In r rows /\ is_accessible_by row_organization r u = true.
Proof.
  unfold accessible_by, is_accessible_by, for_user.
  destruct u as [|pk nm [p|]]; simpl.
  - split; [intros [] | intros [_ H]; discriminate].
  - destruct (is_superadmin p).
    + tauto.
    + destruct (organization p) as [o|]; simpl.
      * now rewrite filter_In.
      * split; [intros [] | intros [_ H]; discriminate].
  - split; [intros [] | intros [_ H]; discriminate].
Qed.

(** X3. Once the tenant-isolation guard has let a non-superadmin principal
    with a Profile through, scoping by the request ([for_request]) and
    scoping by the principal ([for_user]) give the same rows, whether or
    not a tenant is attached. *)
Theorem X3_request_scope_is_user_scope {Row : Type}
        (row_organization : Row -> Organization) (rows : list Row)
        (request : Request) (pk : nat) (nm : string) (p : UserProfile) :
  user request = AuthUser pk nm (Some p) ->
  role p <> "superadmin" ->
  TenantMiddleware.TenantIsolation_process_request request = None ->
  for_request row_organization rows request =
  for_user row_organization rows (user request).
Proof.
  intros Hu Hr Hpass. unfold for_request.
  destruct (tenant request) as [t|] eqn:Et; [|reflexivity].
  unfold TenantMiddleware.TenantIsolation_process_request in Hpass.
  rewrite Hu, Et in Hpass. simpl in Hpass.
  apply String.eqb_neq in Hr. unfold is_superadmin in Hpass.
  rewrite Hr in Hpass. rewrite Hu. unfold for_user. simpl.
  destruct (organization p) as [o|]; simpl in Hpass.
  - destruct (org_eqb o t) eqn:E; [|discriminate].
    apply Nat.eqb_eq in E. symmetry.
    now apply for_tenant_same_pk.
  - discriminate.
Qed.

Lemma X3_request_scope_is_user_scope_witness :
  for_request Sample.task_organization Sample.tasks
    (Sample.request_for Sample.bob "/api/org/acme-corp/tasks/"
                        (Some Sample.acme)) =
  for_user Sample.task_organization Sample.tasks Sample.bob.
Proof.
  assert (Hn : role Sample.bob_profile <> "superadmin")
    by (simpl; discriminate).
  apply (X3_request_scope_is_user_scope Sample.task_organization
           Sample.tasks
           (Sample.request_for Sample.bob "/api/org/acme-corp/tasks/"
                               (Some Sample.acme))
           4 "bob" Sample.bob_profile eq_refl Hn eq_refl).
Defined.

(** X4. Scoping twice: narrowing a query set to one organization and then
    to another leaves the first scope when both are the same organization
    and nothing when they differ. *)
Theorem X4_scopes_compose {Row : Type}
        (row_organization : Row -> Organization) (rows : list Row)
        (a b : Organization) :
  for_tenant row_organization
             (for_tenant row_organization rows (Some a)) (Some b) =
  if Nat.eqb (org_pk a) (org_pk b)
  then for_tenant row_organization rows (Some a)
  else [].
Proof.
  simpl. unfold org_eqb. induction rows as [|r rs IH]; simpl.
  - now destruct (org_pk a =? org_pk b)%nat.
  - destruct (org_pk (row_organization r) =? org_pk a)%nat eqn:Ea; simpl.
    + apply Nat.eqb_eq in Ea. rewrite Ea, IH.
      now destruct (org_pk a =? org_pk b)%nat.
    + exact IH.
Qed.

(** ** The tenant middleware chain *)

Lemma prefix_app (s1 s2 : string) :
  String.prefix s1 s2 = true -> exists rest, s2 = s1 ++ rest.
Proof.
  revert s2. induction s1 as [|c s1 IH]; intros s2 H.
  - exists s2. reflexivity.
  - destruct s2 as [|c' s2]; simpl in H; [discriminate|].
    destruct (ascii_dec c c') as [<-|]; [|discriminate].
    destruct (IH s2 H) as [rest ->]. exists rest. reflexivity.
Qed.

Lemma org_path_not_exempt (p : string) :
  String.prefix "/api/org/" p = true ->
  any_startswith p TenantMiddleware.exempt_paths = false /\
  any_startswith p TenantMiddleware.skip_paths = false /\
  any_startswith p TenantMiddleware.tenant_required_paths = true.
Proof.
  intros H.
  assert (Hreq : any_startswith p TenantMiddleware.tenant_required_paths
                 = true).
  { unfold any_startswith, TenantMiddleware.tenant_required_paths.
    simpl. now rewrite H. }
  destruct (prefix_app _ _ H) as [rest ->].
  split; [reflexivity | split; [reflexivity | exact Hreq]].
Qed.

Lemma objects_get_Ok_inv {Row : Type} (lookup : Row -> bool)
      (rows : list Row) (r : Row) :
  objects_get lookup rows = Ok r -> In r rows /\ lookup r = true.
Proof.
  unfold objects_get. intros H.
  destruct (filter lookup rows) as [|x [|y l]] eqn:E; try discriminate.
  injection H as ->. apply filter_In. rewrite E. now left.
Qed.

Lemma detection_returns (db : Db) (request request' : Request)
      (resp : option Response) :
  TenantMiddleware.TenantDetection_process_request db request
  = TenantMiddleware.Return request' resp ->
  path request' = path request /\ user request' = user request /\
  ((tenant request' = None /\ resp = None) \/
   (exists slug,
       tenant request' = None /\ org_slug_attr request' = Some slug /\
       resp = Some (TenantMiddleware.not_found slug)) \/
   (exists o,
       tenant request' = Some o /\ In o (organizations db) /\
       org_slug_attr request' = Some (org_slug o) /\ resp = None)).
Proof.
  unfold TenantMiddleware.TenantDetection_process_request.
  set (cleared := set_org_slug (set_tenant request None) None).
  change (path cleared) with (path request).
  assert (Hc : forall q r,
             TenantMiddleware.Return cleared None
             = TenantMiddleware.Return q r ->
             path q = path request /\ user q = user request /\
             ((tenant q = None /\ r = None) \/
              (exists slug,
                  tenant q = None /\ org_slug_attr q = Some slug /\
                  r = Some (TenantMiddleware.not_found slug)) \/
              (exists o,
                  tenant q = Some o /\ In o (organizations db) /\
                  org_slug_attr q = Some (org_slug o) /\ r = None))).
  { intros q r E. injection E as <- <-. repeat split. left. split; reflexivity. }
  destruct (any_startswith (path request) TenantMiddleware.skip_paths);
    [apply Hc|].
  destruct (str_in "org" (split "/" (path request))); [|apply Hc].
  destruct (index "org" (split "/" (path request))) as [i|]; [|apply Hc].
  destruct (i + 1 <? List.length (split "/" (path request)))%nat;
    [|apply Hc].
  destruct (nth_error (split "/" (path request)) (i + 1)) as [slug|];
    [|apply Hc].
  destruct (slug =? ""); simpl negb; cbv iota; [apply Hc|].
  destruct (objects_get (fun o => org_slug o =? slug) (organizations db))
    as [o|[|]] eqn:E; intros H; try discriminate.
  - injection H as <- <-. apply objects_get_Ok_inv in E.
    destruct E as [Ho Es]. apply String.eqb_eq in Es.
    repeat split. right. right. exists o. simpl. rewrite Es. auto.
  - injection H as <- <-. repeat split. right. left. exists slug. auto.
Qed.

(** X5. The tenant-required guard answers 400 on a path under
    [/api/org/] exactly when no tenant is attached, since no exempt
    prefix covers such a path, and never answers on any other path. *)
Theorem X5_tenant_required (request : Request) :
  (String.prefix "/api/org/" (path request) = true ->
   (tenant request = None ->
    TenantMiddleware.TenantRequired_process_request request
    = Some TenantMiddleware.organization_required /\
    status TenantMiddleware.organization_required = 400) /\
   (tenant request <> None ->
    TenantMiddleware.TenantRequired_process_request request = None)) /\
  (String.prefix "/api/org/" (path request) = false ->
   TenantMiddleware.TenantRequired_process_request request = None).
Proof.
  unfold TenantMiddleware.TenantRequired_process_request. split.
  - intros H. destruct (org_path_not_exempt _ H) as [He [_ Hr]].
    rewrite He, Hr. split.
    + intros Ht. rewrite Ht. split; reflexivity.
    + intros Ht. destruct (tenant request); [reflexivity | congruence].
  - intros H.
    destruct (any_startswith (path request) TenantMiddleware.exempt_paths);
      [reflexivity|].
    unfold any_startswith, TenantMiddleware.tenant_required_paths. simpl.
    rewrite H. reflexivity.
Qed.

Lemma X5_tenant_required_witness :
  TenantMiddleware.TenantRequired_process_request
    (Sample.request_for Sample.bob "/api/org/" None)
  = Some TenantMiddleware.organization_required /\
  TenantMiddleware.TenantRequired_process_request
    (Sample.request_for Sample.bob "/api/organizations/" None) = None.
Proof.
  split.
  - destruct (X5_tenant_required
                (Sample.request_for Sample.bob "/api/org/" None))
      as [H _].
    destruct (H eq_refl) as [Hd _]. apply Hd. reflexivity.
  - destruct (X5_tenant_required
                (Sample.request_for Sample.bob "/api/organizations/" None))
      as [_ H].
    apply H. reflexivity.
Defined.

(** X6. Whatever tenant or slug the incoming request carried, what the
    tenant resolver hands on is consistent: the path and the user are
    untouched; a tenant, when attached, is a row of Organization whose slug
    is the recorded slug, and then there is no response; a response, when
    there is one, is the 404 for the recorded slug and no tenant is
    attached. *)
Theorem X6_resolver_leaves_consistent_request (db : Db)
        (request request' : Request) (resp : option Response) :
  TenantMiddleware.TenantDetection_process_request db request
  = TenantMiddleware.Return request' resp ->
  path request' = path request /\ user request' = user request /\
  (forall o, tenant request' = Some o ->
             In o (organizations db) /\
             org_slug_attr request' = Some (org_slug o) /\ resp = None) /\
  (forall r, resp = Some r ->
             tenant request' = None /\
             exists slug, org_slug_attr request' = Some slug /\
                          r = TenantMiddleware.not_found slug).
Proof.
  intros H. destruct (detection_returns db request request' resp H)
    as [Hp [Hu Hcases]].
  repeat split; try assumption.
  - destruct Hcases as [[Ht _] | [[slug [Ht _]] | [o' [Ht [Hin _]]]]];
      congruence.
  - destruct Hcases as [[Ht _] | [[slug [Ht _]] | [o' [Ht [_ [Hs _]]]]]];
      congruence.
  - destruct Hcases as [[Ht _] | [[slug [Ht _]] | [o' [Ht [_ [_ Hr]]]]]];
      congruence.
  - destruct Hcases as [[_ Hr] | [[slug [Ht _]] | [o' [_ [_ [_ Hr]]]]]];
      congruence.
  - destruct Hcases as [[_ Hr] | [[slug [_ [Hs Hr]]] | [o' [_ [_ [_ Hr]]]]]];
      try congruence.
    exists slug. split; congruence.
Qed.

Lemma X6_resolver_leaves_consistent_request_witness :
  tenant (set_tenant
            (set_org_slug
               (mkRequest "/api/org/globex/" Sample.bob (Some Sample.acme)
                          (Some "acme-corp") None)
               (Some "globex"))
            (Some Sample.globex)) = Some Sample.globex /\
  In Sample.globex (organizations Sample.db).
Proof.
  destruct (X6_resolver_leaves_consistent_request Sample.db
              (mkRequest "/api/org/globex/" Sample.bob (Some Sample.acme)
                         (Some "acme-corp") None)
              (set_tenant
                 (set_org_slug
                    (mkRequest "/api/org/globex/" Sample.bob
                               (Some Sample.acme) (Some "acme-corp") None)
                    (Some "globex"))
                 (Some Sample.globex))
              None eq_refl) as [_ [_ [H _]]].
  split; [reflexivity|]. apply (H Sample.globex eq_refl).
Defined.

(** X7. The chain of the resolver and the tenant-required guard: a request
    on a path under [/api/org/] that both let through carries a tenant, and
    that tenant is a row of Organization. *)
Theorem X7_org_paths_carry_a_tenant (db : Db) (request request' : Request) :
  String.prefix "/api/org/" (path request) = true ->
  TenantMiddleware.TenantDetection_process_request db request
  = TenantMiddleware.Return request' None ->
  TenantMiddleware.TenantRequired_process_request request' = None ->
  exists o, tenant request' = Some o /\ In o (organizations db).
Proof.
  intros Hpre Hdet Hreq.
  destruct (detection_returns db request request' None Hdet)
    as [Hp [_ Hcases]].
  unfold TenantMiddleware.TenantRequired_process_request in Hreq.
  rewrite Hp in Hreq.
  destruct (org_path_not_exempt _ Hpre) as [He [_ Hr]].
  rewrite He, Hr in Hreq.
  destruct Hcases as [[Ht _] | [[slug [_ [_ Hr']]] | [o [Ht [Hin _]]]]].
  - rewrite Ht in Hreq. discriminate.
  - discriminate.
  - exists o. auto.
Qed.

Lemma X7_org_paths_carry_a_tenant_witness :
  exists o,
    tenant (set_tenant
              (set_org_slug
                 (Sample.request_for Sample.bob "/api/org/acme-corp/tasks/"
                                     None)
                 (Some "acme-corp"))
              (Some Sample.acme)) = Some o /\
    In o (organizations Sample.db).
Proof.
  apply (X7_org_paths_carry_a_tenant Sample.db
           (Sample.request_for Sample.bob "/api/org/acme-corp/tasks/" None));
    reflexivity.
Defined.

(** ** Tenant membership: the class, the helper and the guard *)

(** X8. The DRF class [BelongsToTenant] and the request helper
    [has_tenant_access()] called without an organization decide alike on
    every request. *)
Theorem X8_belongs_is_tenant_access (request : Request) :
  Decorators.BelongsToTenant_has_permission (Some (user request))
                                            (tenant request) =
  TenantMiddleware.has_tenant_access request None.
Proof.
  unfold Decorators.BelongsToTenant_has_permission,
    TenantMiddleware.has_tenant_access.
  destruct (user request) as [|pk nm [p|]]; simpl; try reflexivity.
  destruct (tenant request); reflexivity.
Qed.

(** X9. Whoever [has_tenant_access()] admits, the tenant-isolation guard
    lets through; and for a principal with a Profile on a request with a
    tenant attached the two decide alike. *)
Theorem X9_tenant_access_implies_isolation (request : Request) :
  (TenantMiddleware.has_tenant_access request None = true ->
   TenantMiddleware.TenantIsolation_process_request request = None) /\
  (forall p t,
      user_profile (user request) = Some p -> tenant request = Some t ->
      (TenantMiddleware.TenantIsolation_process_request request = None <->
       TenantMiddleware.has_tenant_access request None = true)).
Proof.
  unfold TenantMiddleware.has_tenant_access,
    TenantMiddleware.TenantIsolation_process_request.
  split.
  - destruct (user request) as [|pk nm [p|]]; simpl; try reflexivity.
    + destruct (is_superadmin p); [reflexivity|].
      destruct (tenant request) as [t|]; [|reflexivity].
      intros H. now rewrite H.
    + destruct (tenant request); reflexivity.
  - intros p t Hp Ht. rewrite Ht.
    destruct (user request) as [|pk nm q]; simpl in *; [discriminate|].
    subst q. destruct (is_superadmin p); [tauto|].
    destruct (opt_org_eqb (organization p) (Some t)); simpl.
    + tauto.
    + split; discriminate.
Qed.

Lemma X9_tenant_access_implies_isolation_witness :
  TenantMiddleware.TenantIsolation_process_request
    (Sample.request_for Sample.bob "/api/org/acme-corp/tasks/"
                        (Some Sample.acme)) = None.
Proof.
  destruct (X9_tenant_access_implies_isolation
              (Sample.request_for Sample.bob "/api/org/acme-corp/tasks/"
                                  (Some Sample.acme))) as [H _].
  apply H. reflexivity.
Defined.

(** ** Relations between the permission classes *)

(** X10. Whoever [CanManageUsers] lets act on some object also passes its
    view-level check. *)
Theorem X10_object_level_implies_view_level (u : option User)
        (obj : RolePermissions.Target) :
  RolePermissions.CanManageUsers_has_object_permission u obj = true ->
  RolePermissions.CanManageUsers_has_permission u = true.
Proof.
  unfold RolePermissions.CanManageUsers_has_object_permission,
    RolePermissions.CanManageUsers_has_permission.
  destruct (not_authenticated u); [discriminate|].
  destruct (request_role u) as [r|]; simpl; [|discriminate].
  destruct (r =? "superadmin") eqn:E1.
  - apply String.eqb_eq in E1. subst r. reflexivity.
  - destruct (r =? "admin") eqn:E2; [|discriminate].
    apply String.eqb_eq in E2. subst r. reflexivity.
Qed.

Lemma X10_object_level_implies_view_level_witness :
  RolePermissions.CanManageUsers_has_permission (Some Sample.alice) = true.
Proof.
  apply (X10_object_level_implies_view_level (Some Sample.alice)
           (RolePermissions.TargetUser Sample.bob)).
  reflexivity.
Defined.

(** X11. The superadmin gates agree: [IsSuperAdmin] of the
    role_permissions module, [IsSuperAdmin] of the decorators module and
    [CanChangeRole] return the same answer for every requester. *)
Theorem X11_superadmin_gates_agree (u : option User) :
  RolePermissions.IsSuperAdmin_has_permission u =
  Decorators.IsSuperAdmin_has_permission u /\
  RolePermissions.CanChangeRole_has_permission u =
  RolePermissions.IsSuperAdmin_has_permission u.
Proof.
  split; [|reflexivity].
  unfold RolePermissions.IsSuperAdmin_has_permission,
    Decorators.IsSuperAdmin_has_permission.
  destruct u as [[|pk nm [p|]]|]; reflexivity.
Qed.

(** X12. [ReadOnlyOrAdmin]: a requester allowed any method is allowed
    every safe method; and on a method that is not safe the class decides
    as [IsAdminOrAbove] of the same module does. *)
Theorem X12_read_only_or_admin (u : option User) (method : string) :
  (forall safe,
      In safe RolePermissions.SAFE_METHODS ->
      RolePermissions.ReadOnlyOrAdmin_has_permission method u = true ->
      RolePermissions.ReadOnlyOrAdmin_has_permission safe u = true) /\
  (~ In method RolePermissions.SAFE_METHODS ->
   RolePermissions.ReadOnlyOrAdmin_has_permission method u =
   RolePermissions.IsAdminOrAbove_has_permission u).
Proof.
  unfold RolePermissions.ReadOnlyOrAdmin_has_permission,
    RolePermissions.IsAdminOrAbove_has_permission.
  split.
  - intros safe Hs. apply str_in_In in Hs. rewrite Hs.
    destruct (str_in method RolePermissions.SAFE_METHODS); [auto|].
    destruct u as [[|pk nm [p|]]|]; simpl; auto.
  - intros Hm. apply str_in_not_In in Hm. rewrite Hm.
    destruct u as [[|pk nm [p|]]|]; reflexivity.
Qed.

Lemma X12_read_only_or_admin_witness :
  RolePermissions.ReadOnlyOrAdmin_has_permission "GET" (Some Sample.alice)
  = true /\
  RolePermissions.ReadOnlyOrAdmin_has_permission "DELETE" (Some Sample.bob)
  = RolePermissions.IsAdminOrAbove_has_permission (Some Sample.bob).
Proof.
  split.
  - destruct (X12_read_only_or_admin (Some Sample.alice) "POST") as [H _].
    apply H; [simpl; auto | reflexivity].
  - destruct (X12_read_only_or_admin (Some Sample.bob) "DELETE") as [_ H].
    apply H. simpl. intuition discriminate.
Defined.

(** ** Guards, DRF classes and service validations *)

(** X13. The service layer and the view guards agree.  Where
    [validate_permission] returns, [require_permission] runs the view;
    where it raises, the guard answers with the status the exception
    carries.  The same holds for [validate_role] and [require_role]. *)
Theorem X13_service_agrees_with_guard (db : Db) (request : Request)
        (org : option Organization) (view : Request -> Response)
        (permission_name : string) (allowed_roles : list string) :
  let self := BaseService.mkService (Some (user request)) org in
  match BaseService.validate_permission db self permission_name with
  | BaseService.Passed =>
      Decorators.require_permission db permission_name view request
      = view request
  | BaseService.Raised e =>
      status (Decorators.require_permission db permission_name view request)
      = BaseService.exc_status e
  end /\
  match BaseService.validate_role self allowed_roles with
  | BaseService.Passed =>
      Decorators.require_role allowed_roles view request = view request
  | BaseService.Raised e =>
      status (Decorators.require_role allowed_roles view request)
      = BaseService.exc_status e
  end.
Proof.
  unfold BaseService.validate_permission, BaseService.validate_role,
    BaseService.validate_user_authenticated,
    Decorators.require_permission, Decorators.require_role.
  simpl. destruct (user request) as [|pk nm [p|]]; simpl.
  - split; reflexivity.
  - split.
    + destruct (has_permission db p permission_name); reflexivity.
    + destruct (str_in (role p) allowed_roles); reflexivity.
  - split; reflexivity.
Qed.

(** X14. A superadmin passes every role and permission guard: with a
    Profile of role 'superadmin', [superadmin_required], [admin_required]
    and [require_permission] of any permission name all run the view. *)
Theorem X14_superadmin_passes_guards (db : Db) (request : Request)
        (p : UserProfile) (view : Request -> Response) (n : string) :
  user_profile (user request) = Some p -> role p = "superadmin" ->
  Decorators.superadmin_required view request = view request /\
  Decorators.admin_required view request = view request /\
  Decorators.require_permission db n view request = view request.
Proof.
  intros Hp Hr.
  unfold Decorators.superadmin_required, Decorators.admin_required,
    Decorators.require_permission.
  destruct (user request) as [|pk nm q]; simpl in *; [discriminate|].
  subst q. unfold has_permission, is_superadmin, is_admin_or_above.
  rewrite Hr. repeat split; reflexivity.
Qed.

Lemma X14_superadmin_passes_guards_witness :
  Decorators.require_permission Sample.db "no_such_permission"
    Sample.ok_view (Sample.request_for Sample.root "/api/x/" None)
  = JsonResponse 200 "" None.
Proof.
  destruct (X14_superadmin_passes_guards Sample.db
              (Sample.request_for Sample.root "/api/x/" None)
              Sample.root_profile Sample.ok_view "no_such_permission"
              eq_refl eq_refl) as [_ [_ H]].
  exact H.
Defined.

(** X15. The DRF class [HasPermission] admits exactly the requests the
    guard [require_permission] hands to the view, when the view names a
    permission; a view that names none (or the empty name) is closed to
    everyone, superadmins included.  Likewise [HasRole] with an empty list
    of roles admits nobody. *)
Theorem X15_has_permission_class (db : Db) (request : Request)
        (view : Request -> Response) (n : string) :
  (n <> "" ->
   if Decorators.HasPermission_has_permission db (Some (user request))
                                              (Some n)
   then Decorators.require_permission db n view request = view request
   else status (Decorators.require_permission db n view request) = 401 \/
        status (Decorators.require_permission db n view request) = 403) /\
  Decorators.HasPermission_has_permission db (Some (user request)) None
  = false /\
  Decorators.HasPermission_has_permission db (Some (user request)) (Some "")
  = false /\
  Decorators.HasRole_has_permission (Some (user request)) [] = false.
Proof.
  unfold Decorators.HasPermission_has_permission,
    Decorators.HasRole_has_permission, Decorators.require_permission.
  destruct (user request) as [|pk nm [p|]]; simpl.
  - repeat split; auto.
  - repeat split; auto. intros Hn. apply String.eqb_neq in Hn. rewrite Hn.
    destruct (has_permission db p n); simpl; auto.
  - repeat split; auto.
Qed.

Lemma X15_has_permission_class_witness :
  Decorators.require_permission Sample.db "view_dashboard" Sample.ok_view
    (Sample.request_for Sample.mallory "/api/x/" None)
  = JsonResponse 200 "" None.
Proof.
  destruct (X15_has_permission_class Sample.db
              (Sample.request_for Sample.mallory "/api/x/" None)
              Sample.ok_view "view_dashboard") as [H _].
  assert (Hn : "view_dashboard" <> "") by discriminate.
  exact (H Hn).
Defined.

(** ** The seed command and the resolver *)

Module SeedResolver.
Import SeedPermissions SeedFacts.

(** The tables of [db'] hold every row of [db]; organizations and user
    overrides are the same. *)
Definition extends (db db' : Db) : Prop :=
  organizations db' = organizations db /\
  user_permissions db' = user_permissions db /\
  incl (permissions db) (permissions db') /\
  incl (role_permissions db) (role_permissions db').

Lemma extends_refl (db : Db) : extends db db.
Proof.
  repeat split; auto using incl_refl.
Qed.

Lemma extends_trans (a b c : Db) : extends a b -> extends b c -> extends a c.
Proof.
  intros [H1 [H2 [H3 H4]]] [K1 [K2 [K3 K4]]].
  repeat split; try congruence; eapply incl_tran; eauto.
Qed.

Lemma get_or_create_grows {Row : Type} (lookup : Row -> bool)
      (create : list Row -> Row) (rows rows' : list Row) (r : Row)
      (created : bool) :
  get_or_create lookup create rows = Ok (rows', r, created) ->
  incl rows rows'.
Proof.
  unfold get_or_create.
  destruct (objects_get lookup rows) as [a|[|]]; intros H;
    try discriminate; injection H as <- _ _.
  - apply incl_refl.
  - apply incl_appl, incl_refl.
Qed.

Lemma create_permissions_extends (data : list PermData) :
  forall db c db' c',
    create_permissions data db c = Ok (db', c') -> extends db db'.
Proof.
  induction data as [|d rest IH]; intros db c db' c' H; simpl in H.
  - injection H as <- _. apply extends_refl.
  - destruct (get_or_create (fun q => perm_name q =? name d)
                (fun rows => mkPermission (next_pk (map perm_pk rows))
                               (name d) (category d) (description d))
                (permissions db)) as [[[rows perm] created]|e] eqn:E;
      cbn [bind] in H; [|discriminate].
    apply get_or_create_grows in E. apply IH in H.
    apply extends_trans with (b := set_permissions db rows); [|exact H].
    repeat split; simpl; auto using incl_refl.
Qed.

Lemma create_role_mappings_extends (r : string) (ns : list string) :
  forall db c db' c',
    create_role_mappings r ns db c = Ok (db', c') -> extends db db'.
Proof.
  induction ns as [|n rest IH]; intros db c db' c' H; simpl in H.
  - injection H as <- _. apply extends_refl.
  - destruct (objects_get (fun q => perm_name q =? n) (permissions db))
      as [q|[|]]; [| now apply IH in H | discriminate].
    destruct (get_or_create
                (fun rp => (rp_role rp =? r)
                           && Nat.eqb (rp_permission rp) (perm_pk q))
                (fun _ => mkRolePermission r (perm_pk q))
                (role_permissions db)) as [[[rows rp] created]|e] eqn:E;
      cbn [bind] in H; [|discriminate].
    apply get_or_create_grows in E. apply IH in H.
    apply extends_trans with (b := set_role_permissions db rows);
      [|exact H].
    repeat split; simpl; auto using incl_refl.
Qed.

Lemma create_mappings_extends (m : list (string * list string)) :
  forall db c db' c',
    create_mappings m db c = Ok (db', c') -> extends db db'.
Proof.
  induction m as [|[r ns] rest IH]; intros db c db' c' H; simpl in H.
  - injection H as <- _. apply extends_refl.
  - destruct (create_role_mappings r ns db c) as [[db1 c1]|e] eqn:E;
      cbn [bind] in H; [|discriminate].
    apply create_role_mappings_extends in E. apply IH in H.
    eapply extends_trans; eauto.
Qed.

Lemma bind_Ok_inv {A B : Type} (m : Result A) (k : A -> Result B) (b : B) :
  bind m k = Ok b -> exists a, m = Ok a /\ k a = Ok b.
Proof.
  destruct m as [a|e]; simpl; intros H; [|discriminate].
  exists a. auto.
Qed.

Lemma handle_Ok_inv (db : Db) (rep : Report) :
  handle db = Ok rep ->
  exists db1 c1 c2,
    create_permissions permissions_data db 0 = Ok (db1, c1) /\
    create_mappings role_permissions_map db1 0 = Ok (db_after rep, c2).
Proof.
  unfold handle. intros H.
  apply bind_Ok_inv in H. destruct H as [[db1 c1] [E1 H]].
  apply bind_Ok_inv in H. destruct H as [[db2 c2] [E2 H]].
  injection H as <-. exists db1, c1, c2. auto.
Qed.

Lemma handle_extends (db : Db) (r : Report) :
  handle db = Ok r -> extends db (db_after r).
Proof.
  intros H. destruct (handle_Ok_inv db r H) as [db1 [c1 [c2 [E1 E2]]]].
  apply create_permissions_extends in E1.
  apply create_mappings_extends in E2.
  eapply extends_trans; eauto.
Qed.

Lemma has_permission_extends (db db' : Db) (p : UserProfile) (n : string) :
  extends db db' ->
  has_permission db p n = true -> has_permission db' p n = true.
Proof.
  intros [_ [Hup [Hperm Hrp]]] H.
  apply has_permission_iff in H. apply has_permission_iff.
  destruct H as [H | [H | H]]; [now left | right; left | right; right].
  - destruct H as [rp [q [H1 [H2 H3]]]]. exists rp, q. auto.
  - destruct H as [up [q [H1 [H2 H3]]]]. exists up, q.
    rewrite Hup. auto.
Qed.

Lemma mapped_names_in_data (r n : string) (ns : list string) :
  In (r, ns) role_permissions_map -> In n ns ->
  In n (map name permissions_data).
Proof.
  assert (Hall : forallb
                   (fun rns =>
                      forallb (fun n => str_in n (map name permissions_data))
                              (snd rns))
                   role_permissions_map = true) by (vm_compute; reflexivity).
  intros Hr Hn. rewrite forallb_forall in Hall.
  specialize (Hall (r, ns) Hr). simpl in Hall.
  rewrite forallb_forall in Hall. apply str_in_In. now apply Hall.
Qed.

Lemma handle_binds (db : Db) (rep : Report) :
  unique_constraints db -> handle db = Ok rep ->
  forall r ns n,
    In (r, ns) role_permissions_map -> In n ns ->
    role_binding (db_after rep) r n.
Proof.
  intros [Hnames Hkeys] H r ns n Hr Hn.
  destruct (create_permissions_runs permissions_data db 0 Hnames)
    as [db1 [c1 [Hrun1 [Hnd1 [_ [Hall1 [_ Hrp1]]]]]]].
  assert (Hu1 : unique_constraints db1).
  { split; [exact Hnd1|]. now rewrite Hrp1. }
  destruct (create_mappings_runs role_permissions_map db1 0 Hu1)
    as [db2 [c2 [Hrun2 [Hu2 [Hp2 [_ [Hall2 _]]]]]]].
  destruct (handle_Ok_inv db rep H) as [db1' [c1' [c2' [E1 E2]]]].
  rewrite Hrun1 in E1. injection E1 as <- <-.
  rewrite Hrun2 in E2. injection E2 as <- <-.
  pose proof (mapped_names_in_data r n ns Hr Hn) as Hin.
  apply in_map_iff in Hin. destruct Hin as [d [Ed Hd]].
  specialize (Hall1 d Hd). rewrite Ed in Hall1.
  unfold names in Hall1. rewrite <- Hp2 in Hall1.
  apply in_map_iff in Hall1. destruct Hall1 as [q [Eq Hq]].
  destruct Hu2 as [Hnames2 Hkeys2].
  assert (Hget : objects_get (fun q => perm_name q =? n) (permissions db2)
                 = Ok q).
  { apply (objects_get_found perm_name (fun q => perm_name q =? n)
             (name_lookup_key n) (permissions db2) q Hnames2 Hq).
    now apply String.eqb_eq. }
  specialize (Hall2 r ns n Hr Hn q Hget).
  apply keys_lookup in Hall2. destruct Hall2 as [rp [Hrp Hl]].
  apply andb_true_iff in Hl. destruct Hl as [L1 L2].
  apply String.eqb_eq in L1. apply Nat.eqb_eq in L2.
  exists rp, q. auto.
Qed.

End SeedResolver.

(** X16. After a run of the seed command on tables that meet the unique
    constraints, every principal holds the permissions the role map gives
    to the principal's role: for every entry (role, names) of the map and
    every name in it, [has_permission] is true. *)
Theorem X16_seeded_roles_hold_their_permissions (db : Db)
        (rep : SeedPermissions.Report) (p : UserProfile)
        (ns : list string) (n : string) :
  SeedPermissions.unique_constraints db ->
  SeedPermissions.handle db = Ok rep ->
  In (role p, ns) SeedPermissions.role_permissions_map -> In n ns ->
  has_permission (SeedPermissions.db_after rep) p n = true.
Proof.
  intros Hu H Hr Hn. apply has_permission_iff. right. left.
  exact (SeedResolver.handle_binds db rep Hu H (role p) ns n Hr Hn).
Qed.

Lemma X16_seeded_roles_hold_their_permissions_witness :
  exists rep,
    SeedPermissions.handle (mkDb [] [] [] []) = Ok rep /\
    has_permission (SeedPermissions.db_after rep) Sample.mallory_profile
                   "view_dashboard" = true.
Proof.
  assert (Hu : SeedPermissions.unique_constraints (mkDb [] [] [] []))
    by (split; constructor).
  destruct (SeedPermissions.handle (mkDb [] [] [] [])) as [rep|e] eqn:H.
  - exists rep. split; [reflexivity|].
    apply (X16_seeded_roles_hold_their_permissions (mkDb [] [] [] []) rep
             Sample.mallory_profile
             ["view_users"; "create_users"; "edit_users";
              "view_dashboard"; "view_analytics"; "view_reports";
              "export_data"; "create_tasks"; "manage_tasks";
              "view_basic_analytics"; "view_advanced_analytics";
              "generate_reports"; "view_settings"]
             "view_dashboard" Hu H).
    + right. right. left. reflexivity.
    + right. right. right. left. reflexivity.
  - exfalso. vm_compute in H. discriminate H.
Defined.

(** X17. The seed command only adds: a run that succeeds leaves the
    organizations and the user overrides as they were, keeps every
    Permission and RolePermission row, and takes no permission away from
    any principal. *)
Theorem X17_seed_never_revokes (db : Db) (rep : SeedPermissions.Report) :
  SeedPermissions.handle db = Ok rep ->
  organizations (SeedPermissions.db_after rep) = organizations db /\
  user_permissions (SeedPermissions.db_after rep) = user_permissions db /\
  incl (permissions db) (permissions (SeedPermissions.db_after rep)) /\
  incl (role_permissions db)
       (role_permissions (SeedPermissions.db_after rep)) /\
  forall p n,
    has_permission db p n = true ->
    has_permission (SeedPermissions.db_after rep) p n = true.
Proof.
  intros H. pose proof (SeedResolver.handle_extends db rep H) as He.
  destruct He as [H1 [H2 [H3 H4]]]. repeat split; auto.
  intros p n. apply SeedResolver.has_permission_extends.
  repeat split; auto.
Qed.

Lemma X17_seed_never_revokes_witness :
  exists rep,
    SeedPermissions.handle Sample.db = Ok rep /\
    has_permission (SeedPermissions.db_after rep) Sample.bob_profile
                   "manage_billing" = true.
Proof.
  destruct (SeedPermissions.handle Sample.db) as [rep|e] eqn:H.
  - exists rep. split; [reflexivity|].
    destruct (X17_seed_never_revokes Sample.db rep H) as [_ [_ [_ [_ Hk]]]].
    apply Hk. reflexivity.
  - exfalso. vm_compute in H. discriminate H.
Defined.

(** ** Role facts attached to the request *)

(** X18. The role middleware raises a flag on the request only for a
    principal whose stored Profile has the role: [is_superadmin] exactly
    for a Profile of role 'superadmin', [is_admin] exactly for 'admin',
    and [is_admin_or_above] exactly for 'admin', 'superadmin' or
    'manager'.  An unauthenticated request, a Profile created on the spot
    and a failed creation all leave the three flags down. *)
Theorem X18_role_flags (create : User -> Result UserProfile)
        (request : Request) :
  let facts := RoleAuthMiddleware.process_request create request in
  (RoleAuthMiddleware.fact_is_superadmin facts = true <->
   exists p, user_profile (user request) = Some p /\
             role p = "superadmin") /\
  (RoleAuthMiddleware.fact_is_admin facts = true <->
   exists p, user_profile (user request) = Some p /\ role p = "admin") /\
  (RoleAuthMiddleware.fact_is_admin_or_above facts = true <->
   exists p, user_profile (user request) = Some p /\
             In (role p) ["admin"; "superadmin"; "manager"]).
Proof.
  unfold RoleAuthMiddleware.process_request.
  destruct (user request) as [|pk nm [p|]]; simpl.
  - repeat split; try discriminate; intros [p [H _]]; discriminate.
  - unfold is_superadmin, is_admin, is_admin_or_above.
    repeat split.
    + intros H. apply String.eqb_eq in H. eauto.
    + intros [q [E H]]. injection E as <-. now apply String.eqb_eq.
    + intros H. apply String.eqb_eq in H. eauto.
    + intros [q [E H]]. injection E as <-. now apply String.eqb_eq.
    + intros H. apply str_in_In in H. eauto.
    + intros [q [E H]]. injection E as <-. now apply str_in_In.
  - destruct (create (AuthUser pk nm None)); simpl;
      repeat split; try discriminate; intros [p [H _]]; discriminate.
Qed.

Lemma process_view_passes (request : Request) (required : string) :
  required <> "" ->
  is_authenticated (user request) = true ->
  (RoleAuthMiddleware.process_view request (Some required) = None <->
   RoleAuthMiddleware.dict_get RoleAuthMiddleware.role_hierarchy
     (Some required) 0
   <= RoleAuthMiddleware.dict_get RoleAuthMiddleware.role_hierarchy
        (user_role request) 0).
Proof.
  intros Hreq Hauth. unfold RoleAuthMiddleware.process_view.
  apply String.eqb_neq in Hreq. simpl RoleAuthMiddleware.truthy.
  rewrite Hreq, Hauth. simpl negb. cbv iota.
  set (w := RoleAuthMiddleware.dict_get RoleAuthMiddleware.role_hierarchy
              (user_role request) 0).
  set (w' := RoleAuthMiddleware.dict_get RoleAuthMiddleware.role_hierarchy
               (Some required) 0).
  destruct (w <? w')%nat eqn:E.
  - apply Nat.ltb_lt in E. split; [intros H; discriminate H | lia].
  - apply Nat.ltb_ge in E. tauto.
Qed.

(** X19. The two halves of the role middleware together: for an
    authenticated principal with a Profile, a view that requires a role is
    reached exactly when the weight of the Profile's role is at least the
    weight of the required role.  A principal whose Profile the middleware
    had to create counts as 'user'; one for whom the creation failed has
    no role and is refused by every view that requires 'user', 'admin' or
    'superadmin'. *)
Theorem X19_role_middleware_chain (create : User -> Result UserProfile)
        (request : Request) (required : string) :
  let weight := fun r => RoleAuthMiddleware.dict_get
                           RoleAuthMiddleware.role_hierarchy r 0 in
  let seen := RoleAuthMiddleware.with_user_role request
                (RoleAuthMiddleware.process_request create request) in
  required <> "" ->
  (forall pk nm p,
      user request = AuthUser pk nm (Some p) ->
      (RoleAuthMiddleware.process_view seen (Some required) = None <->
       weight (Some required) <= weight (Some (role p)))) /\
  (forall pk nm,
      user request = AuthUser pk nm None ->
      match create (user request) with
      | Ok _ =>
          RoleAuthMiddleware.process_view seen (Some required) = None <->
          weight (Some required) <= 1
      | Raise _ =>
          RoleAuthMiddleware.process_view seen (Some required) = None <->
          weight (Some required) = 0
      end).
Proof.
  intros weight seen Hreq.
  assert (Hseen : forall pk nm q,
             user request = AuthUser pk nm q ->
             (RoleAuthMiddleware.process_view seen (Some required) = None <->
              weight (Some required) <= weight (user_role seen))).
  { intros pk nm q Hu. apply process_view_passes; [exact Hreq|].
    subst seen. unfold RoleAuthMiddleware.with_user_role.
    cbn [user]. now rewrite Hu. }
  split.
  - intros pk nm p Hu. rewrite (Hseen pk nm (Some p) Hu).
    subst seen.
    unfold RoleAuthMiddleware.with_user_role,
      RoleAuthMiddleware.process_request.
    rewrite Hu. reflexivity.
  - intros pk nm Hu.
    destruct (create (user request)) as [q|e] eqn:E;
      rewrite (Hseen pk nm None Hu); subst seen;
      unfold RoleAuthMiddleware.with_user_role,
        RoleAuthMiddleware.process_request;
      rewrite Hu in *; cbn [is_authenticated user_profile]; rewrite E.
    + reflexivity.
    + change (weight (user_role
                        (mkRequest (path request) (AuthUser pk nm None)
                           (tenant request) (org_slug_attr request)
                           (RoleAuthMiddleware.fact_user_role
                              RoleAuthMiddleware.no_role))))
        with 0.
      generalize (weight (Some required)). intros w. lia.
Qed.

Lemma X19_role_middleware_chain_witness :
  RoleAuthMiddleware.process_view
    (RoleAuthMiddleware.with_user_role
       (mkRequest "/api/x/" Sample.alice None None None)
       (RoleAuthMiddleware.process_request
          (fun _ => Raise DoesNotExist)
          (mkRequest "/api/x/" Sample.alice None None None)))
    (Some "admin") = None.
Proof.
  assert (Hne : "admin" <> "") by discriminate.
  destruct (X19_role_middleware_chain (fun _ => Raise DoesNotExist)
              (mkRequest "/api/x/" Sample.alice None None None)
              "admin" Hne) as [H _].
  apply (H 2 "alice" Sample.alice_profile eq_refl). simpl. lia.
Defined.

(** ** Ownership *)

(** X20. [IsOwnerOrAdminOrAbove]: an admin or a superadmin gets every
    object; a requester of any other role gets an object that has an
    [owner] exactly when that owner is the requester (same primary key),
    whatever the object's [user] attribute says; and an object with
    neither attribute is closed to such a requester. *)
Theorem X20_owner_or_admin (pk : nat) (nm : string) (p : UserProfile)
        (obj : RolePermissions.Resource) :
  let requester := Some (AuthUser pk nm (Some p)) in
  (In (role p) ["admin"; "superadmin"] ->
   RolePermissions.IsOwnerOrAdminOrAbove_has_object_permission
     requester obj = true) /\
  (~ In (role p) ["admin"; "superadmin"] ->
   (forall pk' nm' p',
       RolePermissions.res_owner obj = Some (Some (AuthUser pk' nm' p')) ->
       (RolePermissions.IsOwnerOrAdminOrAbove_has_object_permission
          requester obj = true <-> pk' = pk)) /\
   (RolePermissions.res_owner obj = None ->
    RolePermissions.res_user obj = None ->
    RolePermissions.IsOwnerOrAdminOrAbove_has_object_permission
      requester obj = false)).
Proof.
  unfold RolePermissions.IsOwnerOrAdminOrAbove_has_object_permission.
  cbn [request_role user_profile option_map]. split.
  - intros H. apply str_in_In in H. now rewrite H.
  - intros H. apply str_in_not_In in H. rewrite H. split.
    + intros pk' nm' p' Ho. rewrite Ho.
      cbn [RolePermissions.opt_user_eqb RolePermissions.user_eqb].
      apply Nat.eqb_eq.
    + intros Ho Hu. now rewrite Ho, Hu.
Qed.

Lemma X20_owner_or_admin_witness :
  RolePermissions.IsOwnerOrAdminOrAbove_has_object_permission
    (Some Sample.alice)
    (RolePermissions.mkResource (Some (Some Sample.bob)) None) = true /\
  RolePermissions.IsOwnerOrAdminOrAbove_has_object_permission
    (Some Sample.bob)
    (RolePermissions.mkResource (Some (Some Sample.mallory))
                                (Some (Some Sample.bob))) = false.
Proof.
  split.
  - destruct (X20_owner_or_admin 2 "alice" Sample.alice_profile
                (RolePermissions.mkResource (Some (Some Sample.bob)) None))
      as [H _].
    apply H. simpl. auto.
  - destruct (X20_owner_or_admin 4 "bob" Sample.bob_profile
                (RolePermissions.mkResource (Some (Some Sample.mallory))
                                            (Some (Some Sample.bob))))
      as [_ H].
    assert (Hn : ~ In (role Sample.bob_profile) ["admin"; "superadmin"])
      by (simpl; intuition discriminate).
    destruct (H Hn) as [Hown _].
    destruct (Hown 3 "mallory" (Some Sample.mallory_profile) eq_refl)
      as [F _].
    destruct (RolePermissions.IsOwnerOrAdminOrAbove_has_object_permission
                (Some (AuthUser 4 "bob" (Some Sample.bob_profile)))
                (RolePermissions.mkResource (Some (Some Sample.mallory))
                                            (Some (Some Sample.bob))));
      [|reflexivity].
    specialize (F eq_refl). discriminate F.
Defined.
